(** * PyMDB graph loader: wire framing, session life cycle, batch decoding

    A shallow embedding of [pymdb/graph_loader.py].  Python integers are [Z],
    [bytes] objects are lists of [Byte.byte], exceptions are values of [exn],
    and a method is a function over the object it is called on and the
    transport it talks to. *)

From Stdlib Require Import ZArith List Bool String Ascii Lia.
From Stdlib Require Import Strings.Byte.
Import ListNotations.
Local Open Scope Z_scope.

(** ** Python values *)

Definition bytes : Type := list byte.

(** The exceptions that can leave a method of the loader. *)
Inductive exn : Type :=
| ValueError (msg : string)
| StopIteration
| InvalidStateError
| StructError
| RuntimeError
| AttributeError
| TransportError (tag : Z)
| ServerError (code : Z).

Inductive result (A : Type) : Type :=
| Ok (a : A)
| Raise (e : exn).
Arguments Ok {A} a.
Arguments Raise {A} e.

Definition rbind {A B : Type} (r : result A) (k : A -> result B) : result B :=
  match r with
  | Ok a => k a
  | Raise e => Raise e
  end.

(** [len(x)] *)
Definition len {A : Type} (l : list A) : Z := Z.of_nat (List.length l).

(** One bound of a Python slice over a sequence of [n] items: a negative
    index counts from the end, and the bound is clamped to [0 .. n]. *)
Definition slice_bound (n i : Z) : Z :=
  if i <? 0 then Z.max (i + n) 0 else Z.min i n.

(** [data[lo:hi]] *)
Definition slice {A : Type} (data : list A) (lo hi : Z) : list A :=
  let lo' := slice_bound (len data) lo in
  let hi' := slice_bound (len data) hi in
  firstn (Z.to_nat (hi' - lo')) (skipn (Z.to_nat lo') data).

(** ** protocol.py *)

(** Modelled from the spec: [protocol.RequestType] is not part of the sources
    at hand.  The message catalog names three session-control opcodes and
    three creation opcodes, one byte each; their numeric values are left to
    the packer. *)
Inductive RequestType : Type :=
| GRAPH_LOADER_NEXT
| GRAPH_LOADER_BEGIN
| GRAPH_LOADER_CLOSE
| EVAL_GRAPH_LOADER_NEW
| SAMPLING_GRAPH_LOADER_NEW
| TRAIN_GRAPH_LOADER_NEW.

(** Modelled from the spec: [protocol.StatusCode] is not part of the sources
    at hand.  The catalog has a normal-completion code, an end-of-iteration
    code and room for server-defined error codes. *)
Inductive StatusCode : Type :=
| SUCCESS
| END_OF_ITERATION
| SERVER_ERROR (code : Z).

(** [code == other] on status codes *)
Definition StatusCode_eqb (a b : StatusCode) : bool :=
  match a, b with
  | SUCCESS, SUCCESS => true
  | END_OF_ITERATION, END_OF_ITERATION => true
  | SERVER_ERROR x, SERVER_ERROR y => x =? y
  | _, _ => false
  end.

(** ** utils/packer.py *)

(** A 32-bit float is identified with its binary32 bit pattern; the loader
    never computes with feature values. *)
Definition float32 : Type := Z.

(** Modelled from the spec: [utils/packer.py] is not part of the sources at
    hand.  The loader uses seven of its functions; each may raise.  The
    development takes the packer as a parameter, so that every statement
    holds whatever byte order and range checks the packer implements. *)
Record Packer : Type := {
  pack_byte : RequestType -> result bytes;
  pack_uint64 : Z -> result bytes;
  pack_uint64_vector : list Z -> result bytes;
  pack_string : string -> result bytes;
  unpack_uint64 : bytes -> result Z;
  unpack_uint64_vector : bytes -> result (list Z);
  unpack_float_vector : bytes -> result (list float32)
}.

(** ** torch *)

(** A tensor is a shaped buffer: the sizes of its dimensions and its entries
    in row-major order. *)
Record Tensor (A : Type) : Type := {
  shape : list Z;
  entries : list A
}.
Arguments shape {A} t.
Arguments entries {A} t.

(** The one-dimensional tensor that holds the items of a flat list.  It is
    what [torch.tensor(data=l, dtype=torch.float32)] returns: every float
    converts. *)
Definition tensor {A : Type} (l : list A) : Tensor A :=
  {| shape := [len l]; entries := l |}.

(** The integers that a signed 64-bit entry or size can hold. *)
Definition fits_int64 (z : Z) : bool := (- 2 ^ 63 <=? z) && (z <? 2 ^ 63).

(** [torch.tensor(data=l, dtype=torch.int64)]: raises when an item does not
    fit a signed 64-bit entry. *)
Definition tensor_int64 (l : list Z) : result (Tensor Z) :=
  if forallb fits_int64 l then Ok (tensor l) else Raise RuntimeError.

(** [t.reshape(r, c)]: raises when a size does not fit a signed 64-bit
    integer; the entries are kept in order; the new shape must account for
    every entry.  One dimension may be [-1], which is then inferred from the
    other one. *)
Definition reshape {A : Type} (t : Tensor A) (r c : Z) : result (Tensor A) :=
  let n := len (entries t) in
  if negb (fits_int64 r) || negb (fits_int64 c) then Raise RuntimeError
  else if (r <? -1) || (c <? -1) then Raise RuntimeError
  else if (r =? -1) && (c =? -1) then Raise RuntimeError
  else if r =? -1 then
    if (c =? 0) || negb (n mod c =? 0) then Raise RuntimeError
    else Ok {| shape := [n / c; c]; entries := entries t |}
  else if c =? -1 then
    if (r =? 0) || negb (n mod r =? 0) then Raise RuntimeError
    else Ok {| shape := [r; n / r]; entries := entries t |}
  else if r * c =? n then Ok {| shape := [r; c]; entries := entries t |}
  else Raise RuntimeError.

(** ** class Graph *)

Module Graph.
Record t : Type := mk {
  node_features : Tensor float32;
  node_labels : Tensor Z;
  edge_index : Tensor Z;
  node_ids : list Z;
  num_seeds : Z;
  feature_size : Z
}.
End Graph.

(** ** mdb_client.MDBClient *)

(** What a call of [_recv] produces: a payload with its status code, or an
    exception raised by the client itself. *)
Inductive reply : Type :=
| Reply (data : bytes) (code : StatusCode)
| Failure (e : exn).

(** Modelled from the spec: [mdb_client.MDBClient] is not part of the sources
    at hand.  The transport is a blocking send and a blocking
    receive-with-status over one request-then-reply channel.  The model
    records every message sent and holds the replies the server will give,
    in order. *)
Record MDBClient : Type := {
  connected : bool;
  sent : list bytes;
  replies : list reply
}.

Definition _send (c : MDBClient) (msg : bytes) : result unit * MDBClient :=
  if connected c
  then (Ok tt, {| connected := true; sent := sent c ++ [msg]; replies := replies c |})
  else (Raise (TransportError 0), c).

Definition _recv (c : MDBClient) : result (bytes * StatusCode) * MDBClient :=
  match replies c with
  | [] => (Raise (TransportError 1), c)
  | Reply data code :: rest =>
      (Ok (data, code), {| connected := connected c; sent := sent c; replies := rest |})
  | Failure e :: rest =>
      (Raise e, {| connected := connected c; sent := sent c; replies := rest |})
  end.


(** ** class GraphLoader: the object *)

Inductive Class : Type :=
| EvalGraphLoader
| SamplingGraphLoader
| TrainGraphLoader.

(** The attributes of a loader once [GraphLoader.__init__] has run.  The
    attributes [num_seeds] and [seed_ids] exist only on the classes that set
    them, and only once they have been set.  The [client] attribute is the
    transport, which the methods below receive next to the object. *)
Record GraphLoader : Type := {
  __class__ : Class;
  tensor_store_name : string;
  batch_size : Z;
  num_neighbors : list Z;
  _graph_loader_id : option Z;
  _size : option Z;
  _closed : bool;
  num_seeds : option Z;
  seed_ids : option (list Z)
}.

Definition set_graph_loader_id (v : option Z) (self : GraphLoader) : GraphLoader :=
  {| __class__ := __class__ self; tensor_store_name := tensor_store_name self;
     batch_size := batch_size self; num_neighbors := num_neighbors self;
     _graph_loader_id := v; _size := _size self; _closed := _closed self;
     num_seeds := num_seeds self; seed_ids := seed_ids self |}.

Definition set_size (v : option Z) (self : GraphLoader) : GraphLoader :=
  {| __class__ := __class__ self; tensor_store_name := tensor_store_name self;
     batch_size := batch_size self; num_neighbors := num_neighbors self;
     _graph_loader_id := _graph_loader_id self; _size := v; _closed := _closed self;
     num_seeds := num_seeds self; seed_ids := seed_ids self |}.

Definition set_closed (v : bool) (self : GraphLoader) : GraphLoader :=
  {| __class__ := __class__ self; tensor_store_name := tensor_store_name self;
     batch_size := batch_size self; num_neighbors := num_neighbors self;
     _graph_loader_id := _graph_loader_id self; _size := _size self; _closed := v;
     num_seeds := num_seeds self; seed_ids := seed_ids self |}.

Definition set_num_seeds (v : Z) (self : GraphLoader) : GraphLoader :=
  {| __class__ := __class__ self; tensor_store_name := tensor_store_name self;
     batch_size := batch_size self; num_neighbors := num_neighbors self;
     _graph_loader_id := _graph_loader_id self; _size := _size self;
     _closed := _closed self;
     num_seeds := Some v; seed_ids := seed_ids self |}.

Definition set_seed_ids (v : list Z) (self : GraphLoader) : GraphLoader :=
  {| __class__ := __class__ self; tensor_store_name := tensor_store_name self;
     batch_size := batch_size self; num_neighbors := num_neighbors self;
     _graph_loader_id := _graph_loader_id self; _size := _size self;
     _closed := _closed self;
     num_seeds := num_seeds self; seed_ids := Some v |}.

(** ** Methods: state and exceptions *)

(** A method body runs on the object and the transport, may change both, and
    returns or raises. *)
Definition Py (A : Type) : Type :=
  GraphLoader -> MDBClient -> result A * GraphLoader * MDBClient.

Definition ret {A : Type} (a : A) : Py A := fun self c => (Ok a, self, c).

Definition raise {A : Type} (e : exn) : Py A := fun self c => (Raise e, self, c).

Definition bind {A B : Type} (m : Py A) (k : A -> Py B) : Py B :=
  fun self c =>
    match m self c with
    | (Ok a, self', c') => k a self' c'
    | (Raise e, self', c') => (Raise e, self', c')
    end.

Declare Scope py_scope.
Delimit Scope py_scope with py.
Notation "x <- m ;; k" := (bind m (fun x => k))
  (at level 61, m at next level, right associativity) : py_scope.
Notation "m ;; k" := (bind m (fun _ => k))
  (at level 61, right associativity) : py_scope.
Local Open Scope py_scope.

(** a packer call *)
Definition lift {A : Type} (r : result A) : Py A := fun self c => (r, self, c).

(** [self.attr] *)
Definition getattr {A : Type} (attr : GraphLoader -> A) : Py A :=
  fun self c => (Ok (attr self), self, c).

(** [self.attr = v] *)
Definition setattr (upd : GraphLoader -> GraphLoader) : Py unit :=
  fun self c => (Ok tt, upd self, c).

(** [self.client._send(msg)] *)
Definition client_send (msg : bytes) : Py unit :=
  fun self c => let (r, c') := _send c msg in (r, self, c').

(** [self.client._recv()] *)
Definition client_recv : Py (bytes * StatusCode) :=
  fun self c => let (r, c') := _recv c in (r, self, c').

Declare Scope result_scope.
Delimit Scope result_scope with res.
Notation "x <- r ;; k" := (rbind r (fun x => k))
  (at level 61, r at next level, right associativity) : result_scope.

(** ** A reference packer *)

(** Modelled from the spec: [utils/packer.py] is not part of the sources at
    hand.  This instance follows the wire codec of the design: fixed-width
    64-bit unsigned integers and 32-bit floats, no padding, no alignment,
    vectors as the concatenation of their items, strings as their UTF-8
    bytes without a terminator.  The design fixes neither the byte order nor
    the opcode values; little-endian order and the numbering below are
    choices of this instance, which serves to run the loader on concrete
    inputs. *)
Module RefPacker.

Definition byte_of_Z (z : Z) : byte :=
  match Byte.of_N (Z.to_N (z mod 256)) with
  | Some b => b
  | None => x00
  end.

Definition Z_of_byte (b : byte) : Z := Z.of_N (Byte.to_N b).

(** the [n] low-order bytes of [z], least significant first *)
Fixpoint le_bytes (n : nat) (z : Z) : bytes :=
  match n with
  | O => []
  | S n' => byte_of_Z z :: le_bytes n' (z / 256)
  end.

Fixpoint le_value (b : bytes) : Z :=
  match b with
  | [] => 0
  | x :: rest => Z_of_byte x + 256 * le_value rest
  end.

(** [count] items of [width] bytes each, read off the front of [b] *)
Fixpoint items (width count : nat) (b : bytes) : list Z :=
  match count with
  | O => []
  | S k => le_value (firstn width b) :: items width k (skipn width b)
  end.

Definition opcode (r : RequestType) : Z :=
  match r with
  | GRAPH_LOADER_NEXT => 1
  | GRAPH_LOADER_BEGIN => 2
  | GRAPH_LOADER_CLOSE => 3
  | EVAL_GRAPH_LOADER_NEW => 4
  | SAMPLING_GRAPH_LOADER_NEW => 5
  | TRAIN_GRAPH_LOADER_NEW => 6
  end.

Definition pack_byte (r : RequestType) : result bytes :=
  Ok [byte_of_Z (opcode r)].

Definition pack_uint64 (z : Z) : result bytes :=
  if (0 <=? z) && (z <? 2 ^ 64) then Ok (le_bytes 8 z) else Raise StructError.

Fixpoint pack_uint64_vector (l : list Z) : result bytes :=
  match l with
  | [] => Ok []
  | z :: rest =>
      (b <- pack_uint64 z ;;
       bs <- pack_uint64_vector rest ;;
       Ok (b ++ bs))%res
  end.

(** UTF-8 of a code point below 256 *)
Definition utf8 (a : ascii) : bytes :=
  let n := Z.of_N (N_of_ascii a) in
  if n <? 128 then [byte_of_Z n]
  else [byte_of_Z (192 + n / 64); byte_of_Z (128 + n mod 64)].

Definition pack_string (s : string) : result bytes :=
  Ok (flat_map utf8 (list_ascii_of_string s)).

Definition unpack_uint64 (b : bytes) : result Z :=
  if len b =? 8 then Ok (le_value b) else Raise StructError.

Definition unpack_uint64_vector (b : bytes) : result (list Z) :=
  if len b mod 8 =? 0 then Ok (items 8 (List.length b / 8) b)
  else Raise StructError.

Definition unpack_float_vector (b : bytes) : result (list float32) :=
  if len b mod 4 =? 0 then Ok (items 4 (List.length b / 4) b)
  else Raise StructError.

Definition packer : Packer :=
  Build_Packer pack_byte pack_uint64 pack_uint64_vector pack_string
    unpack_uint64 unpack_uint64_vector unpack_float_vector.

End RefPacker.

(** ** class GraphLoader: the methods *)

Section Loader.

Variable P : Packer.

(** [packer.pack_uint64(v)] on an attribute that may hold [None], which no
    integer packer accepts. *)
Definition pack_uint64_attr (v : option Z) : result bytes :=
  match v with
  | Some z => pack_uint64 P z
  | None => Raise StructError
  end.

(** [GraphLoader.is_closed] *)
Definition is_closed (self : GraphLoader) : bool := _closed self.

(** Modelled from the spec: [utils/decorators.py] is not part of the sources
    at hand.  [check_closed] is the per-call reject-if-closed guard: the
    decorated operation must find the session open, else it fails with an
    invalid-state error before its body runs. *)
Definition check_closed {A : Type} (method : Py A) : Py A :=
  closed <- getattr is_closed ;;
  if closed then raise InvalidStateError else method.

(** [GraphLoader._begin] *)
Definition _begin : Py unit :=
  let msg := [] in
  b <- lift (pack_byte P GRAPH_LOADER_BEGIN) ;;
  let msg := msg ++ b in
  id <- getattr _graph_loader_id ;;
  b <- lift (pack_uint64_attr id) ;;
  let msg := msg ++ b in
  client_send msg ;;
  client_recv ;;
  ret tt.

(** [GraphLoader._close] *)
Definition _close : Py unit :=
  let msg := [] in
  b <- lift (pack_byte P GRAPH_LOADER_CLOSE) ;;
  let msg := msg ++ b in
  id <- getattr _graph_loader_id ;;
  b <- lift (pack_uint64_attr id) ;;
  let msg := msg ++ b in
  client_send msg ;;
  client_recv ;;
  setattr (set_graph_loader_id None) ;;
  setattr (set_size None) ;;
  setattr (set_closed true).

(** [GraphLoader.close] *)
Definition close : Py unit :=
  closed <- getattr _closed ;;
  if negb closed then _close else ret tt.

(** [GraphLoader.size] *)
Definition size : Py (option Z) :=
  check_closed (getattr _size).

(** [GraphLoader.__len__] *)
Definition __len__ : Py (option Z) := size.

(** [GraphLoader.__iter__]; the loader it returns is the object itself. *)
Definition __iter__ : Py unit :=
  check_closed (_begin ;; ret tt).

(** The decoding part of [GraphLoader.__next__], from the four header reads
    to the construction of the [Graph]. *)
Definition decode (data : bytes) : result Graph.t :=
  (num_nodes <- unpack_uint64 P (slice data 0 8) ;;
   num_edges <- unpack_uint64 P (slice data 8 16) ;;
   num_seeds <- unpack_uint64 P (slice data 16 24) ;;
   feature_size <- unpack_uint64 P (slice data 24 32) ;;
   let (lo, hi) := (32, 32 + 4 * num_nodes * feature_size) in
   floats <- unpack_float_vector P (slice data lo hi) ;;
   node_features <- reshape (tensor floats) num_nodes feature_size ;;
   let (lo, hi) := (hi, hi + 8 * num_nodes) in
   labels <- unpack_uint64_vector P (slice data lo hi) ;;
   node_labels <- tensor_int64 labels ;;
   let (lo, hi) := (hi, hi + 8 * 2 * num_edges) in
   edges <- unpack_uint64_vector P (slice data lo hi) ;;
   edge_tensor <- tensor_int64 edges ;;
   edge_index <- reshape edge_tensor 2 num_edges ;;
   let (lo, hi) := (hi, hi + 8 * num_nodes) in
   node_ids <- unpack_uint64_vector P (slice data lo hi) ;;
   Ok (Graph.mk node_features node_labels edge_index node_ids
                num_seeds feature_size))%res.

(** [GraphLoader.__next__] *)
Definition __next__ : Py Graph.t :=
  check_closed (
    let msg := [] in
    b <- lift (pack_byte P GRAPH_LOADER_NEXT) ;;
    let msg := msg ++ b in
    id <- getattr _graph_loader_id ;;
    b <- lift (pack_uint64_attr id) ;;
    let msg := msg ++ b in
    client_send msg ;;
    r <- client_recv ;;
    let (data, code) := r in
    if StatusCode_eqb code END_OF_ITERATION then raise StopIteration
    else lift (decode data)).

(** ** Construction *)

(** [self.attr] for an attribute that exists only once it has been set *)
Definition hasattr {A : Type} (v : option A) : result A :=
  match v with
  | Some a => Ok a
  | None => Raise AttributeError
  end.

(** [GraphLoader.__init__] *)
Definition GraphLoader__init__ (cls : Class) (tensor_store_name : string)
    (batch_size : Z) (num_neighbors : list Z) : result GraphLoader :=
  if batch_size <? 1 then
    Raise (ValueError "batch_size must be a positive integer")
  else if len num_neighbors =? 0 then
    Raise (ValueError "num_neighbors must be non-empty")
  else
    Ok {| __class__ := cls;
          tensor_store_name := tensor_store_name;
          batch_size := batch_size;
          num_neighbors :=
            map (fun x => if x <? 0 then 2 ^ 64 - 1 else x) num_neighbors;
          _graph_loader_id := None;
          _size := None;
          _closed := true;
          num_seeds := None;
          seed_ids := None |}.

(** The reply handling shared, line for line, by the three [_new] methods. *)
Definition handle_new_response : Py unit :=
  r <- client_recv ;;
  let (data, _) := r in
  id <- lift (unpack_uint64 P (slice data 0 8)) ;;
  setattr (set_graph_loader_id (Some id)) ;;
  sz <- lift (unpack_uint64 P (slice data 8 16)) ;;
  setattr (set_size (Some sz)) ;;
  setattr (set_closed false).

(** [EvalGraphLoader._new] *)
Definition EvalGraphLoader_new : Py unit :=
  let msg := [] in
  b <- lift (pack_byte P EVAL_GRAPH_LOADER_NEW) ;;
  let msg := msg ++ b in
  bs <- getattr batch_size ;;
  b <- lift (pack_uint64 P bs) ;;
  let msg := msg ++ b in
  nn <- getattr num_neighbors ;;
  b <- lift (pack_uint64 P (len nn)) ;;
  let msg := msg ++ b in
  name <- getattr tensor_store_name ;;
  b <- lift (pack_uint64 P (Z.of_nat (String.length name))) ;;
  let msg := msg ++ b in
  b <- lift (pack_uint64_vector P nn) ;;
  let msg := msg ++ b in
  b <- lift (pack_string P name) ;;
  let msg := msg ++ b in
  client_send msg ;;
  handle_new_response.

(** [SamplingGraphLoader._new] *)
Definition SamplingGraphLoader_new : Py unit :=
  let msg := [] in
  b <- lift (pack_byte P SAMPLING_GRAPH_LOADER_NEW) ;;
  let msg := msg ++ b in
  bs <- getattr batch_size ;;
  b <- lift (pack_uint64 P bs) ;;
  let msg := msg ++ b in
  ns <- getattr num_seeds ;;
  ns <- lift (hasattr ns) ;;
  b <- lift (pack_uint64 P ns) ;;
  let msg := msg ++ b in
  nn <- getattr num_neighbors ;;
  b <- lift (pack_uint64 P (len nn)) ;;
  let msg := msg ++ b in
  name <- getattr tensor_store_name ;;
  b <- lift (pack_uint64 P (Z.of_nat (String.length name))) ;;
  let msg := msg ++ b in
  b <- lift (pack_uint64_vector P nn) ;;
  let msg := msg ++ b in
  b <- lift (pack_string P name) ;;
  let msg := msg ++ b in
  client_send msg ;;
  handle_new_response.

(** [TrainGraphLoader._new] *)
Definition TrainGraphLoader_new : Py unit :=
  let msg := [] in
  b <- lift (pack_byte P TRAIN_GRAPH_LOADER_NEW) ;;
  let msg := msg ++ b in
  bs <- getattr batch_size ;;
  b <- lift (pack_uint64 P bs) ;;
  let msg := msg ++ b in
  nn <- getattr num_neighbors ;;
  b <- lift (pack_uint64 P (len nn)) ;;
  let msg := msg ++ b in
  name <- getattr tensor_store_name ;;
  b <- lift (pack_uint64 P (Z.of_nat (String.length name))) ;;
  let msg := msg ++ b in
  ids <- getattr seed_ids ;;
  ids <- lift (hasattr ids) ;;
  b <- lift (pack_uint64 P (len ids)) ;;
  let msg := msg ++ b in
  b <- lift (pack_uint64_vector P nn) ;;
  let msg := msg ++ b in
  b <- lift (pack_string P name) ;;
  let msg := msg ++ b in
  b <- lift (pack_uint64_vector P ids) ;;
  let msg := msg ++ b in
  client_send msg ;;
  handle_new_response.

(** What a constructor call leaves behind: the exception it raised, if any,
    the object as far as it was initialised ([None] when the base
    constructor did not complete), and the transport. *)
Record Attempt : Type := {
  raised : option exn;
  object : option GraphLoader;
  client : MDBClient
}.

(** Runs the rest of a subclass constructor on the object that the base
    constructor made. *)
Definition after_base (base : result GraphLoader) (rest : Py unit)
    (c : MDBClient) : Attempt :=
  match base with
  | Raise e => {| raised := Some e; object := None; client := c |}
  | Ok self =>
      match rest self c with
      | (Ok _, self', c') =>
          {| raised := None; object := Some self'; client := c' |}
      | (Raise e, self', c') =>
          {| raised := Some e; object := Some self'; client := c' |}
      end
  end.

(** [EvalGraphLoader.__init__] *)
Definition EvalGraphLoader__init__ (c : MDBClient) (tensor_store_name : string)
    (batch_size : Z) (num_neighbors : list Z) : Attempt :=
  after_base
    (GraphLoader__init__ EvalGraphLoader tensor_store_name batch_size
       num_neighbors)
    EvalGraphLoader_new c.

(** [SamplingGraphLoader.__init__] *)
Definition SamplingGraphLoader__init__ (c : MDBClient)
    (tensor_store_name : string) (batch_size : Z) (num_neighbors : list Z)
    (num_seeds : Z) : Attempt :=
  if num_seeds <? 1 then
    {| raised := Some (ValueError "num_seeds must be a positive integer");
       object := None; client := c |}
  else
    after_base
      (GraphLoader__init__ SamplingGraphLoader tensor_store_name batch_size
         num_neighbors)
      (setattr (set_num_seeds num_seeds) ;; SamplingGraphLoader_new) c.

(** [TrainGraphLoader.__init__] *)
Definition TrainGraphLoader__init__ (c : MDBClient) (tensor_store_name : string)
    (batch_size : Z) (num_neighbors : list Z) (seed_ids : list Z) : Attempt :=
  after_base
    (GraphLoader__init__ TrainGraphLoader tensor_store_name batch_size
       num_neighbors)
    ((if len seed_ids =? 0
      then raise (ValueError "seed_ids must be non-empty")
      else ret tt) ;;
     setattr (set_seed_ids seed_ids) ;;
     TrainGraphLoader_new) c.

(** A constructor call with its arguments. *)
Inductive construction : Type :=
| NewEval (tensor_store_name : string) (batch_size : Z)
    (num_neighbors : list Z)
| NewSampling (tensor_store_name : string) (batch_size : Z)
    (num_neighbors : list Z) (num_seeds : Z)
| NewTrain (tensor_store_name : string) (batch_size : Z)
    (num_neighbors : list Z) (seed_ids : list Z).

Definition construct (k : construction) (c : MDBClient) : Attempt :=
  match k with
  | NewEval name bs nn => EvalGraphLoader__init__ c name bs nn
  | NewSampling name bs nn ns => SamplingGraphLoader__init__ c name bs nn ns
  | NewTrain name bs nn ids => TrainGraphLoader__init__ c name bs nn ids
  end.

(** ** The public operations of a session *)

Inductive operation : Type :=
| Is_closed
| Close
| Size
| Len
| Iter
| Next.

Inductive value : Type :=
| VNone
| VBool (b : bool)
| VInt (n : option Z)
| VGraph (g : Graph.t).

Definition call (op : operation) : Py value :=
  match op with
  | Is_closed => b <- getattr is_closed ;; ret (VBool b)
  | Close => close ;; ret VNone
  | Size => n <- size ;; ret (VInt n)
  | Len => n <- __len__ ;; ret (VInt n)
  | Iter => __iter__ ;; ret VNone
  | Next => g <- __next__ ;; ret (VGraph g)
  end.

(** The object and the transport after a sequence of calls, whatever each
    call returned or raised. *)
Fixpoint run (ops : list operation) (self : GraphLoader) (c : MDBClient)
    : GraphLoader * MDBClient :=
  match ops with
  | [] => (self, c)
  | op :: rest =>
      match call op self c with
      | (_, self', c') => run rest self' c'
      end
  end.

(** ** The for statement over a loader *)

(** The loop of [for graph in loader]: [__next__] is called until it raises
    [StopIteration], which ends the loop normally; any other exception
    leaves the loop.  The graphs are collected in the order they came.
    [None] when the fuel runs out before the loop ends. *)
Fixpoint next_until_stop (fuel : nat) (acc : list Graph.t)
    (self : GraphLoader) (c : MDBClient)
    : option (result (list Graph.t) * GraphLoader * MDBClient) :=
  match fuel with
  | O => None
  | S fuel' =>
      match __next__ self c with
      | (Ok g, self', c') => next_until_stop fuel' (acc ++ [g]) self' c'
      | (Raise StopIteration, self', c') => Some (Ok acc, self', c')
      | (Raise e, self', c') => Some (Raise e, self', c')
      end
  end.

(** [for graph in loader]: [__iter__] once, then the loop. *)
Definition for_each (fuel : nat) (self : GraphLoader) (c : MDBClient)
    : option (result (list Graph.t) * GraphLoader * MDBClient) :=
  match __iter__ self c with
  | (Ok _, self', c') => next_until_stop fuel [] self' c'
  | (Raise e, self', c') => Some (Raise e, self', c')
  end.

(** ** Constructor calls and the objects they make *)

Definition given_tensor_store_name (k : construction) : string :=
  match k with
  | NewEval name _ _ => name
  | NewSampling name _ _ _ => name
  | NewTrain name _ _ _ => name
  end.

(** The same constructor call with another [num_neighbors] argument. *)
Definition with_num_neighbors (k : construction) (nn : list Z)
    : construction :=
  match k with
  | NewEval name bs _ => NewEval name bs nn
  | NewSampling name bs _ ns => NewSampling name bs nn ns
  | NewTrain name bs _ ids => NewTrain name bs nn ids
  end.

(** The object of a constructor call once the base constructor and the
    assignments of the subclass constructor have run, before [_new]. *)
Definition before_new (k : construction) : GraphLoader :=
  {| __class__ :=
       match k with
       | NewEval _ _ _ => EvalGraphLoader
       | NewSampling _ _ _ _ => SamplingGraphLoader
       | NewTrain _ _ _ _ => TrainGraphLoader
       end;
     tensor_store_name := given_tensor_store_name k;
     batch_size :=
       match k with
       | NewEval _ bs _ => bs
       | NewSampling _ bs _ _ => bs
       | NewTrain _ bs _ _ => bs
       end;
     num_neighbors :=
       map (fun x => if x <? 0 then 2 ^ 64 - 1 else x)
         match k with
         | NewEval _ _ nn => nn
         | NewSampling _ _ nn _ => nn
         | NewTrain _ _ nn _ => nn
         end;
     _graph_loader_id := None;
     _size := None;
     _closed := true;
     num_seeds :=
       match k with
       | NewSampling _ _ _ ns => Some ns
       | _ => None
       end;
     seed_ids :=
       match k with
       | NewTrain _ _ _ ids => Some ids
       | _ => None
       end |}.

(** What every [_new] does, in terms of the creation message of the call:
    build the message, send it, handle the reply. *)
Definition create (layout : result bytes) : Py unit :=
  fun self c =>
    match layout with
    | Raise e => (Raise e, self, c)
    | Ok m =>
        if connected c
        then handle_new_response self
               {| connected := true; sent := sent c ++ [m];
                  replies := replies c |}
        else (Raise (TransportError 0), self, c)
    end.

(** ** The design, for comparison with the code *)

(** The header-declared length of a payload: the 32 header bytes, four bytes
    per feature value and eight per label, edge endpoint and node id. *)
Definition declared_length (data : bytes) : result Z :=
  (num_nodes <- unpack_uint64 P (slice data 0 8) ;;
   num_edges <- unpack_uint64 P (slice data 8 16) ;;
   _ <- unpack_uint64 P (slice data 16 24) ;;
   feature_size <- unpack_uint64 P (slice data 24 32) ;;
   Ok (32 + 4 * num_nodes * feature_size + 8 * num_nodes
       + 16 * num_edges + 8 * num_nodes))%res.

(** [num_neighbors] as the base constructor stores it *)
Definition stored_neighbors (num_neighbors : list Z) : list Z :=
  map (fun x => if x <? 0 then 2 ^ 64 - 1 else x) num_neighbors.

Definition given_batch_size (k : construction) : Z :=
  match k with
  | NewEval _ bs _ => bs
  | NewSampling _ bs _ _ => bs
  | NewTrain _ bs _ _ => bs
  end.

Definition given_num_neighbors (k : construction) : list Z :=
  match k with
  | NewEval _ _ nn => nn
  | NewSampling _ _ nn _ => nn
  | NewTrain _ _ nn _ => nn
  end.

(** The construction-time validation of the design: a positive
    [batch_size], a non-empty [num_neighbors], a positive [num_seeds] for
    the sampling variant, a non-empty [seed_ids] for the training
    variant. *)
Definition valid_arguments (k : construction) : bool :=
  match k with
  | NewEval _ bs nn => (1 <=? bs) && negb (len nn =? 0)
  | NewSampling _ bs nn ns =>
      (1 <=? bs) && negb (len nn =? 0) && (1 <=? ns)
  | NewTrain _ bs nn ids =>
      (1 <=? bs) && negb (len nn =? 0) && negb (len ids =? 0)
  end.

(** The request layouts of the design, field by field in wire order. *)
Definition EVAL_NEW (batch_size : Z) (num_neighbors : list Z)
    (tensor_store_name : string) : result bytes :=
  (opcode <- pack_byte P EVAL_GRAPH_LOADER_NEW ;;
   b_batch_size <- pack_uint64 P batch_size ;;
   b_len_neighbors <- pack_uint64 P (len num_neighbors) ;;
   b_len_name <- pack_uint64 P (Z.of_nat (String.length tensor_store_name)) ;;
   b_neighbors <- pack_uint64_vector P num_neighbors ;;
   b_name <- pack_string P tensor_store_name ;;
   Ok (opcode ++ b_batch_size ++ b_len_neighbors ++ b_len_name
       ++ b_neighbors ++ b_name))%res.

Definition SAMPLING_NEW (batch_size num_seeds : Z) (num_neighbors : list Z)
    (tensor_store_name : string) : result bytes :=
  (opcode <- pack_byte P SAMPLING_GRAPH_LOADER_NEW ;;
   b_batch_size <- pack_uint64 P batch_size ;;
   b_num_seeds <- pack_uint64 P num_seeds ;;
   b_len_neighbors <- pack_uint64 P (len num_neighbors) ;;
   b_len_name <- pack_uint64 P (Z.of_nat (String.length tensor_store_name)) ;;
   b_neighbors <- pack_uint64_vector P num_neighbors ;;
   b_name <- pack_string P tensor_store_name ;;
   Ok (opcode ++ b_batch_size ++ b_num_seeds ++ b_len_neighbors
       ++ b_len_name ++ b_neighbors ++ b_name))%res.

Definition TRAIN_NEW (batch_size : Z) (num_neighbors : list Z)
    (tensor_store_name : string) (seed_ids : list Z) : result bytes :=
  (opcode <- pack_byte P TRAIN_GRAPH_LOADER_NEW ;;
   b_batch_size <- pack_uint64 P batch_size ;;
   b_len_neighbors <- pack_uint64 P (len num_neighbors) ;;
   b_len_name <- pack_uint64 P (Z.of_nat (String.length tensor_store_name)) ;;
   b_len_seeds <- pack_uint64 P (len seed_ids) ;;
   b_neighbors <- pack_uint64_vector P num_neighbors ;;
   b_name <- pack_string P tensor_store_name ;;
   b_seeds <- pack_uint64_vector P seed_ids ;;
   Ok (opcode ++ b_batch_size ++ b_len_neighbors ++ b_len_name
       ++ b_len_seeds ++ b_neighbors ++ b_name ++ b_seeds))%res.

(** The creation message the design prescribes for a constructor call. *)
Definition creation_layout (k : construction) : result bytes :=
  match k with
  | NewEval name bs nn => EVAL_NEW bs (stored_neighbors nn) name
  | NewSampling name bs nn ns => SAMPLING_NEW bs ns (stored_neighbors nn) name
  | NewTrain name bs nn ids => TRAIN_NEW bs (stored_neighbors nn) name ids
  end.

(** The opcode of the request that an operation sends. *)
Definition request_of (op : operation) : option RequestType :=
  match op with
  | Next => Some GRAPH_LOADER_NEXT
  | Iter => Some GRAPH_LOADER_BEGIN
  | Close => Some GRAPH_LOADER_CLOSE
  | _ => None
  end.

(** [NEXT], [BEGIN] and [CLOSE] of the design: the opcode, then the session
    id. *)
Definition session_request (r : RequestType) (id : option Z) : result bytes :=
  (opcode <- pack_byte P r ;;
   b_id <- pack_uint64_attr id ;;
   Ok (opcode ++ b_id))%res.

(** The messages on the wire after a message was built, sent if the
    connection allows, and answered. *)
Definition sent_after (c : MDBClient) (layout : result bytes) : list bytes :=
  match layout with
  | Ok m => if connected c then sent c ++ [m] else sent c
  | Raise _ => sent c
  end.

(** What a constructor call leaves: no object and an untouched transport
    when the base constructor did not complete; otherwise an open session
    when the call returned and a closed one when it raised. *)
Definition attempt_consistent (c : MDBClient) (a : Attempt) : Prop :=
  match object a with
  | None => (exists e, raised a = Some e) /\ client a = c
  | Some self =>
      match raised a with
      | None => _closed self = false
      | Some _ => _closed self = true
      end
  end.

End Loader.

(** ** A session and a batch to run the loader on *)

Module Example.

Definition u64 (z : Z) : bytes := RefPacker.le_bytes 8 z.

Definition f32 (z : float32) : bytes := RefPacker.le_bytes 4 z.

(** Three nodes with four features each, two edges, one seed.  The
    features are the bit patterns of 1.0, 0.0, 2.0 and -1.0. *)
Definition features : list float32 :=
  [1065353216; 0; 0; 0;
   0; 1073741824; 0; 0;
   0; 0; 3212836864; 1065353216].

Definition labels : list Z := [0; 1; 1].

Definition edges : list Z := [1; 2; 0; 0].

Definition ids : list Z := [40; 17; 23].

Definition payload : bytes :=
  u64 3 ++ u64 2 ++ u64 1 ++ u64 4
  ++ flat_map f32 features ++ flat_map u64 labels
  ++ flat_map u64 edges ++ flat_map u64 ids.

Definition batch : Graph.t :=
  Graph.mk {| shape := [3; 4]; entries := features |}
           {| shape := [3]; entries := labels |}
           {| shape := [2; 2]; entries := edges |}
           ids 1 4.

(** An evaluation session as the server opened it: id 7, four batches. *)
Definition open_session : GraphLoader :=
  {| __class__ := EvalGraphLoader;
     tensor_store_name := "store";
     batch_size := 2;
     num_neighbors := [5; 18446744073709551615];
     _graph_loader_id := Some 7;
     _size := Some 4;
     _closed := false;
     num_seeds := None;
     seed_ids := None |}.

Definition closed_session : GraphLoader :=
  {| __class__ := EvalGraphLoader;
     tensor_store_name := "store";
     batch_size := 2;
     num_neighbors := [5; 18446744073709551615];
     _graph_loader_id := None;
     _size := None;
     _closed := true;
     num_seeds := None;
     seed_ids := None |}.

(** A connected transport on which nothing was sent yet and whose server
    will give the replies [rs]. *)
Definition wire (rs : list reply) : MDBClient :=
  {| connected := true; sent := []; replies := rs |}.

(** The same transport once [msg] went out and every reply came in. *)
Definition wire_after (msg : bytes) : MDBClient :=
  {| connected := true; sent := [msg]; replies := [] |}.

End Example.

(** * Properties *)

(** ** Slices *)

Lemma len_app {A : Type} (l1 l2 : list A) : len (l1 ++ l2) = len l1 + len l2.
Proof. unfold len. rewrite length_app. lia. Qed.

Lemma len_nonneg {A : Type} (l : list A) : 0 <= len l.
Proof. unfold len. lia. Qed.

(** A slice whose bounds are the two ends of a segment of a concatenation is
    that segment. *)
Lemma slice_segment {A : Type} (pre mid post : list A) (lo hi : Z) :
  lo = len pre -> hi = lo + len mid ->
  slice (pre ++ mid ++ post) lo hi = mid.
Proof.
  intros -> ->. unfold slice, slice_bound.
  rewrite !len_app.
  pose proof (len_nonneg pre). pose proof (len_nonneg mid).
  pose proof (len_nonneg post).
  destruct (Z.ltb_spec (len pre) 0); [lia|].
  destruct (Z.ltb_spec (len pre + len mid) 0); [lia|].
  rewrite !Z.min_l by lia.
  replace (len pre + len mid - len pre) with (len mid) by lia.
  unfold len. rewrite !Nat2Z.id.
  rewrite skipn_app, skipn_all, Nat.sub_diag. simpl.
  rewrite firstn_app, firstn_all, Nat.sub_diag. simpl.
  apply app_nil_r.
Qed.

(** Bytes appended to a sequence do not show in a slice that ends within
    it. *)
Lemma slice_app_within {A : Type} (data extra : list A) (lo hi : Z) :
  0 <= lo -> 0 <= hi <= len data ->
  slice (data ++ extra) lo hi = slice data lo hi.
Proof.
  intros Hlo Hhi. unfold slice, slice_bound. rewrite len_app.
  pose proof (len_nonneg extra).
  destruct (Z.ltb_spec lo 0); [lia|].
  destruct (Z.ltb_spec hi 0); [lia|].
  rewrite (Z.min_l hi) by lia. rewrite (Z.min_l hi (len data)) by lia.
  destruct (Z_le_gt_dec lo hi) as [Hle|Hgt].
  - rewrite !(Z.min_l lo) by lia.
    assert (Hn : (Z.to_nat lo <= List.length data)%nat) by (unfold len in *; lia).
    rewrite skipn_app.
    replace (Z.to_nat lo - List.length data)%nat with 0%nat by lia.
    simpl. rewrite firstn_app.
    replace (Z.to_nat (hi - lo) - List.length (skipn (Z.to_nat lo) data))%nat
      with 0%nat by (rewrite length_skipn; unfold len in *; lia).
    simpl. apply app_nil_r.
  - replace (Z.to_nat (hi - Z.min lo (len data + len extra))) with 0%nat by lia.
    replace (Z.to_nat (hi - Z.min lo (len data))) with 0%nat by lia.
    reflexivity.
Qed.

(** ** Running a method *)

Ltac step_py :=
  unfold check_closed, close, _close, _begin, client_send, client_recv,
    getattr, setattr, lift, raise, ret, bind, _send, _recv,
    pack_uint64_attr, is_closed in *.

(** Solves [slice payload lo hi = mid] where [payload] is [pre ++ mid ++ post]
    up to the bracketing of [++]. *)
Ltac segment pre mid post :=
  match goal with
  | |- slice ?payload ?lo ?hi = _ =>
      transitivity (slice (pre ++ mid ++ post) lo hi);
      [ f_equal; subst payload; rewrite <- ?app_assoc, ?app_nil_r; reflexivity
      | apply slice_segment; rewrite ?len_app; unfold len in *;
        cbn [List.length]; lia ]
  end.

Lemma fits_int64_spec (z : Z) :
  fits_int64 z = true <-> - 2 ^ 63 <= z < 2 ^ 63.
Proof.
  unfold fits_int64. rewrite andb_true_iff, Z.leb_le, Z.ltb_lt. tauto.
Qed.

(** A list whose items fit makes an int64 tensor, and only such a list. *)
Lemma tensor_int64_fits (l : list Z) :
  Forall (fun z => - 2 ^ 63 <= z < 2 ^ 63) l ->
  tensor_int64 l = Ok (tensor l).
Proof.
  intros H. unfold tensor_int64.
  replace (forallb fits_int64 l) with true; [reflexivity|].
  symmetry. apply forallb_forall. intros z Hz.
  apply fits_int64_spec. rewrite Forall_forall in H. exact (H z Hz).
Qed.

Lemma tensor_int64_ok (l : list Z) (t : Tensor Z) :
  tensor_int64 l = Ok t ->
  t = tensor l /\ Forall (fun z => - 2 ^ 63 <= z < 2 ^ 63) l.
Proof.
  unfold tensor_int64. destruct (forallb fits_int64 l) eqn:H; [|discriminate].
  intros [= <-]. split; [reflexivity|].
  apply Forall_forall. intros z Hz. apply fits_int64_spec.
  rewrite forallb_forall in H. exact (H z Hz).
Qed.

(** A reshape to non-negative sizes that fit and that account for every
    entry succeeds and keeps the entries in order. *)
Lemma reshape_exact {A : Type} (l : list A) (r c : Z) :
  0 <= r < 2 ^ 63 -> 0 <= c < 2 ^ 63 -> len l = r * c ->
  reshape (tensor l) r c = Ok {| shape := [r; c]; entries := l |}.
Proof.
  intros Hr Hc Hl. unfold reshape, tensor. cbn [entries].
  replace (fits_int64 r) with true
    by (symmetry; apply fits_int64_spec; lia).
  replace (fits_int64 c) with true
    by (symmetry; apply fits_int64_spec; lia).
  cbn [negb orb].
  destruct (Z.ltb_spec r (-1)); [lia|].
  destruct (Z.ltb_spec c (-1)); [lia|].
  destruct (Z.eqb_spec r (-1)); [lia|].
  destruct (Z.eqb_spec c (-1)); [lia|].
  cbn [orb andb]. rewrite Hl, Z.eqb_refl. reflexivity.
Qed.

Section Decoding.

Variable P : Packer.

(** On a payload laid out as the header declares, every read of [decode]
    finds its own section. *)
Lemma decode_layout
    (h_nodes h_edges h_seeds h_fsize fb lb eb ib : bytes)
    (nn ne ns fs : Z) (feats : list float32) (labels edges ids : list Z) :
  len h_nodes = 8 -> unpack_uint64 P h_nodes = Ok nn ->
  len h_edges = 8 -> unpack_uint64 P h_edges = Ok ne ->
  len h_seeds = 8 -> unpack_uint64 P h_seeds = Ok ns ->
  len h_fsize = 8 -> unpack_uint64 P h_fsize = Ok fs ->
  0 <= nn < 2 ^ 63 -> 0 <= ne < 2 ^ 63 -> 0 <= fs < 2 ^ 63 ->
  len fb = 4 * (nn * fs) -> unpack_float_vector P fb = Ok feats ->
  len feats = nn * fs ->
  len lb = 8 * nn -> unpack_uint64_vector P lb = Ok labels ->
  Forall (fun z => - 2 ^ 63 <= z < 2 ^ 63) labels ->
  len eb = 8 * (2 * ne) -> unpack_uint64_vector P eb = Ok edges ->
  len edges = 2 * ne ->
  Forall (fun z => - 2 ^ 63 <= z < 2 ^ 63) edges ->
  len ib = 8 * nn -> unpack_uint64_vector P ib = Ok ids ->
  decode P (h_nodes ++ h_edges ++ h_seeds ++ h_fsize ++ fb ++ lb ++ eb ++ ib)
  = Ok (Graph.mk {| shape := [nn; fs]; entries := feats |}
                 (tensor labels)
                 {| shape := [2; ne]; entries := edges |}
                 ids ns fs).
Proof.
  intros L1 U1 L2 U2 L3 U3 L4 U4 Hnn Hne Hfs Lf Uf Cf Ll Ul Fl Le Ue Ce Fe
    Li Ui.
  set (payload := h_nodes ++ h_edges ++ h_seeds ++ h_fsize ++ fb ++ lb ++ eb ++ ib).
  assert (S1 : slice payload 0 8 = h_nodes)
    by (segment (@nil byte) h_nodes
          (h_edges ++ h_seeds ++ h_fsize ++ fb ++ lb ++ eb ++ ib)).
  assert (S2 : slice payload 8 16 = h_edges)
    by (segment h_nodes h_edges (h_seeds ++ h_fsize ++ fb ++ lb ++ eb ++ ib)).
  assert (S3 : slice payload 16 24 = h_seeds)
    by (segment (h_nodes ++ h_edges) h_seeds (h_fsize ++ fb ++ lb ++ eb ++ ib)).
  assert (S4 : slice payload 24 32 = h_fsize)
    by (segment (h_nodes ++ h_edges ++ h_seeds) h_fsize (fb ++ lb ++ eb ++ ib)).
  assert (S5 : slice payload 32 (32 + 4 * nn * fs) = fb)
    by (segment (h_nodes ++ h_edges ++ h_seeds ++ h_fsize) fb (lb ++ eb ++ ib)).
  assert (S6 : slice payload (32 + 4 * nn * fs) (32 + 4 * nn * fs + 8 * nn) = lb)
    by (segment (h_nodes ++ h_edges ++ h_seeds ++ h_fsize ++ fb) lb (eb ++ ib)).
  assert (S7 : slice payload (32 + 4 * nn * fs + 8 * nn)
                 (32 + 4 * nn * fs + 8 * nn + 8 * 2 * ne) = eb)
    by (segment (h_nodes ++ h_edges ++ h_seeds ++ h_fsize ++ fb ++ lb) eb ib).
  assert (S8 : slice payload (32 + 4 * nn * fs + 8 * nn + 8 * 2 * ne)
                 (32 + 4 * nn * fs + 8 * nn + 8 * 2 * ne + 8 * nn) = ib)
    by (segment (h_nodes ++ h_edges ++ h_seeds ++ h_fsize ++ fb ++ lb ++ eb)
          ib (@nil byte)).
  assert (R1 : reshape (tensor feats) nn fs
               = Ok {| shape := [nn; fs]; entries := feats |})
    by (apply reshape_exact; assumption).
  assert (R2 : reshape (tensor edges) 2 ne
               = Ok {| shape := [2; ne]; entries := edges |})
    by (apply reshape_exact; lia).
  unfold decode.
  rewrite S1, U1; cbn [rbind]. rewrite S2, U2; cbn [rbind].
  rewrite S3, U3; cbn [rbind]. rewrite S4, U4; cbn [rbind].
  rewrite S5, Uf; cbn [rbind]. rewrite R1; cbn [rbind].
  rewrite S6, Ul; cbn [rbind].
  rewrite (tensor_int64_fits labels Fl); cbn [rbind].
  rewrite S7, Ue; cbn [rbind].
  rewrite (tensor_int64_fits edges Fe); cbn [rbind].
  rewrite R2; cbn [rbind]. rewrite S8, Ui. reflexivity.
Qed.


Lemma Ok_inj {A : Type} (a b : A) : Ok a = Ok b -> a = b.
Proof. congruence. Qed.

(** [__next__] on an open session whose request goes out and whose reply
    comes in: one message is sent, one reply is consumed, and the status
    code is compared with [END_OF_ITERATION] only. *)
Lemma next_open (self : GraphLoader) (c : MDBClient) (id : Z)
    (opb idb data : bytes) (code : StatusCode) (rest : list reply) :
  _closed self = false -> _graph_loader_id self = Some id ->
  pack_byte P GRAPH_LOADER_NEXT = Ok opb -> pack_uint64 P id = Ok idb ->
  connected c = true -> replies c = Reply data code :: rest ->
  __next__ P self c
  = (if StatusCode_eqb code END_OF_ITERATION
     then Raise StopIteration else decode P data,
     self,
     {| connected := true; sent := sent c ++ [opb ++ idb]; replies := rest |}).
Proof.
  intros Hopen Hid Hop Hidb Hconn Hrep.
  unfold __next__. step_py.
  rewrite Hopen, Hop, Hid, Hidb, Hconn. cbn [replies connected sent].
  rewrite Hrep. cbn [app].
  destruct (StatusCode_eqb code END_OF_ITERATION); reflexivity.
Qed.

(** C1. On a NEXT reply with normal status whose payload is the four 8-byte
    header fields, then [num_nodes * feature_size] floats of four bytes,
    then [num_nodes] labels, [2 * num_edges] edge endpoints and [num_nodes]
    node ids of eight bytes each, [__next__] returns the batch made of
    exactly those sections, in that order: the features as a
    [[num_nodes, feature_size]] matrix with its entries in wire order, the
    edge index as a [[2, num_edges]] matrix, and the header's [num_seeds]
    and [feature_size] unchanged.  The labels and the edge endpoints go
    into int64 tensors and the three sizes into tensor shapes, so they have
    to fit a signed 64-bit integer; the node ids and [num_seeds] need
    not. *)
Theorem next_decodes_wire_layout
    (self : GraphLoader) (c : MDBClient) (id : Z) (opb idb : bytes)
    (rest : list reply)
    (h_nodes h_edges h_seeds h_fsize fb lb eb ib : bytes)
    (nn ne ns fs : Z) (feats : list float32) (labels edges ids : list Z) :
  _closed self = false -> _graph_loader_id self = Some id ->
  pack_byte P GRAPH_LOADER_NEXT = Ok opb -> pack_uint64 P id = Ok idb ->
  connected c = true ->
  replies c
  = Reply (h_nodes ++ h_edges ++ h_seeds ++ h_fsize ++ fb ++ lb ++ eb ++ ib)
      SUCCESS :: rest ->
  len h_nodes = 8 -> unpack_uint64 P h_nodes = Ok nn ->
  len h_edges = 8 -> unpack_uint64 P h_edges = Ok ne ->
  len h_seeds = 8 -> unpack_uint64 P h_seeds = Ok ns ->
  len h_fsize = 8 -> unpack_uint64 P h_fsize = Ok fs ->
  0 <= nn < 2 ^ 63 -> 0 <= ne < 2 ^ 63 -> 0 <= fs < 2 ^ 63 ->
  len fb = 4 * (nn * fs) -> unpack_float_vector P fb = Ok feats ->
  len feats = nn * fs ->
  len lb = 8 * nn -> unpack_uint64_vector P lb = Ok labels ->
  len labels = nn ->
  Forall (fun z => - 2 ^ 63 <= z < 2 ^ 63) labels ->
  len eb = 8 * (2 * ne) -> unpack_uint64_vector P eb = Ok edges ->
  len edges = 2 * ne ->
  Forall (fun z => - 2 ^ 63 <= z < 2 ^ 63) edges ->
  len ib = 8 * nn -> unpack_uint64_vector P ib = Ok ids ->
  __next__ P self c
  = (Ok (Graph.mk {| shape := [nn; fs]; entries := feats |}
                  {| shape := [nn]; entries := labels |}
                  {| shape := [2; ne]; entries := edges |}
                  ids ns fs),
     self,
     {| connected := true; sent := sent c ++ [opb ++ idb]; replies := rest |}).
Proof.
  intros Hopen Hid Hop Hidb Hconn Hrep
    L1 U1 L2 U2 L3 U3 L4 U4 Hnn Hne Hfs Lf Uf Cf Ll Ul Cl Fl Le Ue Ce Fe
    Li Ui.
  rewrite (next_open self c id opb idb
             (h_nodes ++ h_edges ++ h_seeds ++ h_fsize ++ fb ++ lb ++ eb ++ ib)
             SUCCESS rest) by assumption.
  cbn [StatusCode_eqb].
  rewrite (decode_layout h_nodes h_edges h_seeds h_fsize fb lb eb ib
             nn ne ns fs feats labels edges ids) by assumption.
  unfold tensor. rewrite Cl. reflexivity.
Qed.

(** A label or an edge endpoint that does not fit a signed 64-bit integer
    makes the decoding raise, wherever it stands in its section. *)
Lemma tensor_int64_overflow (l : list Z) (z : Z) :
  In z l -> 2 ^ 63 <= z -> tensor_int64 l = Raise RuntimeError.
Proof.
  intros Hin Hz. unfold tensor_int64.
  destruct (forallb fits_int64 l) eqn:H; [|reflexivity].
  rewrite forallb_forall in H. specialize (H z Hin).
  apply fits_int64_spec in H. lia.
Qed.

(** A successful reshape gives the requested non-negative shape and accounts
    for every entry. *)
Lemma reshape_ok {A : Type} (t u : Tensor A) (r c : Z) :
  0 <= r -> 0 <= c -> reshape t r c = Ok u ->
  shape u = [r; c] /\ entries u = entries t /\ len (entries t) = r * c.
Proof.
  intros Hr Hc. unfold reshape.
  destruct (negb (fits_int64 r) || negb (fits_int64 c)); [discriminate|].
  destruct (Z.ltb_spec r (-1)); [lia|].
  destruct (Z.ltb_spec c (-1)); [lia|].
  destruct (Z.eqb_spec r (-1)); [lia|].
  destruct (Z.eqb_spec c (-1)); [lia|].
  cbn [orb andb].
  destruct (Z.eqb_spec (r * c) (len (entries t))); [|discriminate].
  intros [= <-]. cbn. auto.
Qed.

(** C2, as the code has it.  [decode] never compares the length of the
    payload with the length its header declares.  Bytes after the declared
    length are ignored: a payload of the declared length followed by any
    excess decodes exactly as the payload alone, to the same batch or to
    the same error.  The only length checks are the two reshapes: a batch
    is returned only if the feature section gave
    [num_nodes * feature_size] values and the edge section
    [2 * num_edges], for the [num_nodes], [num_edges] and [feature_size]
    that the header of the payload holds. *)
Theorem decode_has_no_length_check :
  (forall b z, unpack_uint64 P b = Ok z -> 0 <= z) ->
  (forall data extra,
      declared_length P data = Ok (len data) ->
      decode P (data ++ extra) = decode P data) /\
  (forall data g,
      decode P data = Ok g ->
      exists num_nodes num_edges,
        unpack_uint64 P (slice data 0 8) = Ok num_nodes /\
        unpack_uint64 P (slice data 8 16) = Ok num_edges /\
        unpack_uint64 P (slice data 16 24) = Ok (Graph.num_seeds g) /\
        unpack_uint64 P (slice data 24 32) = Ok (Graph.feature_size g) /\
        shape (Graph.node_features g) = [num_nodes; Graph.feature_size g] /\
        len (entries (Graph.node_features g))
        = num_nodes * Graph.feature_size g /\
        shape (Graph.edge_index g) = [2; num_edges] /\
        len (entries (Graph.edge_index g)) = 2 * num_edges).
Proof.
  intros Huns. split.
  - intros data extra Hdecl. unfold declared_length in Hdecl.
    destruct (unpack_uint64 P (slice data 0 8)) as [nn|] eqn:U1;
      [|discriminate].
    destruct (unpack_uint64 P (slice data 8 16)) as [ne|] eqn:U2;
      [|discriminate].
    destruct (unpack_uint64 P (slice data 16 24)) as [ns|] eqn:U3;
      [|discriminate].
    destruct (unpack_uint64 P (slice data 24 32)) as [fs|] eqn:U4;
      [|discriminate].
    cbv beta iota delta [rbind] in Hdecl. apply Ok_inj in Hdecl.
    rename Hdecl into Hlen.
    pose proof (Huns _ _ U1). pose proof (Huns _ _ U2).
    pose proof (Huns _ _ U4).
    assert (0 <= nn * fs) by nia.
    unfold decode.
    rewrite !(slice_app_within data extra) by lia.
    rewrite U1, U2, U3, U4. cbv beta iota delta [rbind].
    rewrite !(slice_app_within data extra) by lia.
    reflexivity.
  - intros data g. unfold decode.
    destruct (unpack_uint64 P (slice data 0 8)) as [nn|] eqn:U1;
      [|discriminate].
    destruct (unpack_uint64 P (slice data 8 16)) as [ne|] eqn:U2;
      [|discriminate].
    destruct (unpack_uint64 P (slice data 16 24)) as [ns|] eqn:U3;
      [|discriminate].
    destruct (unpack_uint64 P (slice data 24 32)) as [fs|] eqn:U4;
      [|discriminate].
    cbn [rbind].
    destruct (unpack_float_vector P _) as [floats|]; [|discriminate].
    cbn [rbind].
    destruct (reshape (tensor floats) nn fs) as [nf|] eqn:R1; [|discriminate].
    cbn [rbind].
    destruct (unpack_uint64_vector P _) as [labels|]; [|discriminate].
    cbn [rbind].
    destruct (tensor_int64 labels) as [lt|]; [|discriminate].
    cbn [rbind].
    destruct (unpack_uint64_vector P _) as [edges|]; [|discriminate].
    cbn [rbind].
    destruct (tensor_int64 edges) as [et|] eqn:T2; [|discriminate].
    cbn [rbind].
    destruct (reshape et 2 ne) as [ei|] eqn:R2; [|discriminate].
    cbn [rbind].
    destruct (unpack_uint64_vector P _) as [ids|]; [|discriminate].
    intros [= <-].
    cbn [Graph.node_features Graph.edge_index Graph.feature_size
         Graph.num_seeds].
    pose proof (Huns _ _ U1). pose proof (Huns _ _ U2).
    pose proof (Huns _ _ U4).
    apply reshape_ok in R1; [|lia|lia]. apply reshape_ok in R2; [|lia|lia].
    destruct R1 as (Hs1 & He1 & Hl1). destruct R2 as (Hs2 & He2 & Hl2).
    exists nn, ne. rewrite He1, He2.
    repeat split; try reflexivity; assumption.
Qed.


End Decoding.

(** ** The session life cycle *)

Ltac case_match :=
  match goal with
  | |- context [match ?x with _ => _ end] => destruct x eqn:?
  end.

(** Case analysis on the next packer call, attribute lookup or connection
    test of a method body. *)
Ltac case_pack :=
  match goal with
  | |- context [match pack_byte ?p ?x with _ => _ end] =>
      destruct (pack_byte p x) eqn:?
  | |- context [match pack_uint64 ?p ?x with _ => _ end] =>
      destruct (pack_uint64 p x) eqn:?
  | |- context [match pack_uint64_vector ?p ?x with _ => _ end] =>
      destruct (pack_uint64_vector p x) eqn:?
  | |- context [match pack_string ?p ?x with _ => _ end] =>
      destruct (pack_string p x) eqn:?
  | |- context [match hasattr ?x with _ => _ end] =>
      destruct (hasattr x) eqn:?
  | |- context [if connected ?c then _ else _] =>
      destruct (connected c) eqn:?
  end.

Ltac unfold_new :=
  unfold EvalGraphLoader_new, SamplingGraphLoader_new, TrainGraphLoader_new;
  unfold bind, lift, getattr, client_send, _send.

Section Session.

Variable P : Packer.

(** On a closed session [close] returns at once. *)
Lemma close_closed (self : GraphLoader) (c : MDBClient) :
  _closed self = true -> close P self c = (Ok tt, self, c).
Proof. intros H. step_py. rewrite H. reflexivity. Qed.

(** Whenever [close] returns, the session is closed. *)
Lemma close_returns_closed (self self' : GraphLoader) (c c' : MDBClient) :
  close P self c = (Ok tt, self', c') -> _closed self' = true.
Proof.
  step_py. destruct (_closed self) eqn:Hc; cbn [negb].
  - intros [= <- _]. exact Hc.
  - repeat case_match; intros [= <- _]; reflexivity.
Qed.

(** [close] that returns on an open session has cleared the id and the
    size, has set the closed flag, and has kept everything else. *)
Lemma close_returns_cleared (self self' : GraphLoader) (c c' : MDBClient) :
  _closed self = false ->
  close P self c = (Ok tt, self', c') ->
  self' = {| __class__ := __class__ self;
             tensor_store_name := tensor_store_name self;
             batch_size := batch_size self;
             num_neighbors := num_neighbors self;
             _graph_loader_id := None;
             _size := None;
             _closed := true;
             num_seeds := num_seeds self;
             seed_ids := seed_ids self |}.
Proof.
  intros Hc. step_py. rewrite Hc. cbn [negb].
  destruct (pack_byte P GRAPH_LOADER_CLOSE); [|discriminate].
  destruct (_graph_loader_id self); [|discriminate].
  destruct (pack_uint64 P _); [|discriminate].
  destruct (connected c); [|discriminate]. cbn [replies connected sent].
  destruct (replies c) as [|[data code|e] rest]; try discriminate.
  intros [= <- _]. reflexivity.
Qed.

(** The guard of [check_closed] on a closed session. *)
Lemma check_closed_closed {A : Type} (m : Py A) (self : GraphLoader)
    (c : MDBClient) :
  _closed self = true ->
  check_closed m self c = (Raise InvalidStateError, self, c).
Proof. intros H. step_py. rewrite H. reflexivity. Qed.

(** No operation changes a closed session or uses its transport. *)
Lemma call_closed (op : operation) (self : GraphLoader) (c : MDBClient) :
  _closed self = true ->
  exists r, call P op self c = (r, self, c).
Proof.
  intros H. destruct op; cbn [call]; unfold bind at 1.
  - eexists. step_py. reflexivity.
  - rewrite close_closed by exact H. eexists. reflexivity.
  - unfold size. rewrite check_closed_closed by exact H.
    eexists. reflexivity.
  - unfold __len__, size. rewrite check_closed_closed by exact H.
    eexists. reflexivity.
  - unfold __iter__. rewrite check_closed_closed by exact H.
    eexists. reflexivity.
  - unfold __next__. rewrite check_closed_closed by exact H.
    eexists. reflexivity.
Qed.

Lemma run_closed (ops : list operation) (self : GraphLoader) (c : MDBClient) :
  _closed self = true -> run P ops self c = (self, c).
Proof.
  intros H. induction ops as [|op ops IH]; cbn [run]; [reflexivity|].
  destruct (call_closed op self c H) as [r ->]. exact IH.
Qed.

(** The reply handling of [_new] opens the session exactly when it
    returns. *)
Lemma handle_new_response_closed (self : GraphLoader) (c : MDBClient) :
  _closed self = true ->
  match handle_new_response P self c with
  | (Ok _, self', _) => _closed self' = false
  | (Raise _, self', _) => _closed self' = true
  end.
Proof.
  intros H. unfold handle_new_response. step_py.
  destruct (replies c) as [|[data code|e] rest]; cbn; try exact H.
  destruct (unpack_uint64 P (slice data 0 8)); cbn; try exact H.
  destruct (unpack_uint64 P (slice data 8 16)); cbn; try exact H.
  reflexivity.
Qed.

(** Each [_new], run on the object the base constructor left closed, opens
    the session exactly when it returns. *)
Lemma new_closed (self : GraphLoader) (c : MDBClient) :
  _closed self = true ->
  forall m, In m [EvalGraphLoader_new P; SamplingGraphLoader_new P;
                  TrainGraphLoader_new P] ->
  match m self c with
  | (Ok _, self', _) => _closed self' = false
  | (Raise _, self', _) => _closed self' = true
  end.
Proof.
  intros H m [<-|[<-|[<-|[]]]]; unfold_new;
    repeat (case_pack; try exact H);
    apply handle_new_response_closed; exact H.
Qed.

Lemma base_init_closed (cls : Class) (name : string) (bs : Z) (nn : list Z)
    (self : GraphLoader) :
  GraphLoader__init__ cls name bs nn = Ok self ->
  _graph_loader_id self = None /\ _size self = None /\ _closed self = true.
Proof.
  unfold GraphLoader__init__.
  destruct (bs <? 1); [discriminate|].
  destruct (len nn =? 0); [discriminate|].
  intros [= <-]. cbn. auto.
Qed.

Lemma after_base_consistent (base : result GraphLoader) (rest : Py unit)
    (c : MDBClient) :
  (forall self, base = Ok self -> _closed self = true) ->
  (forall self c0, _closed self = true ->
     match rest self c0 with
     | (Ok _, self', _) => _closed self' = false
     | (Raise _, self', _) => _closed self' = true
     end) ->
  attempt_consistent c (after_base base rest c).
Proof.
  intros Hbase Hrest. unfold attempt_consistent, after_base.
  destruct base as [self|e]; cbn.
  - specialize (Hrest self c (Hbase self eq_refl)).
    destruct (rest self c) as [[[u|e] self'] c']; cbn; exact Hrest.
  - split; [eexists; reflexivity | reflexivity].
Qed.

Lemma construct_consistent (k : construction) (c : MDBClient) :
  attempt_consistent c (construct P k c).
Proof.
  destruct k as [name bs nn|name bs nn ns|name bs nn ids]; cbn [construct].
  - unfold EvalGraphLoader__init__. apply after_base_consistent.
    + intros self Hb. apply base_init_closed in Hb. tauto.
    + intros self c0 H.
      apply (new_closed self c0 H). cbn. auto.
  - unfold SamplingGraphLoader__init__. destruct (ns <? 1).
    + split; [eexists; reflexivity | reflexivity].
    + apply after_base_consistent.
      * intros self Hb. apply base_init_closed in Hb. tauto.
      * intros self c0 H. unfold bind at 1. unfold setattr.
        apply (new_closed (set_num_seeds ns self) c0 H). cbn. auto.
  - unfold TrainGraphLoader__init__. apply after_base_consistent.
    + intros self Hb. apply base_init_closed in Hb. tauto.
    + intros self c0 H. unfold bind at 1.
      destruct (len ids =? 0); cbn [raise ret]; [exact H|].
      unfold bind at 1. unfold setattr.
      apply (new_closed (set_seed_ids ids self) c0 H). cbn. auto.
Qed.

(** C3. On a closed session [size], [__len__], [__iter__] and [__next__]
    raise the invalid-state error and leave the transport as it was: nothing
    is sent and no reply is consumed.  [is_closed] returns the boolean flag
    of the session, on every session, and leaves object and transport
    untouched. *)
Theorem closed_session_is_guarded :
  (forall self c,
      call P Is_closed self c = (Ok (VBool (_closed self)), self, c)) /\
  (forall self c,
      _closed self = true ->
      size self c = (Raise InvalidStateError, self, c) /\
      __len__ self c = (Raise InvalidStateError, self, c) /\
      __iter__ P self c = (Raise InvalidStateError, self, c) /\
      __next__ P self c = (Raise InvalidStateError, self, c)).
Proof.
  split.
  - intros self c. reflexivity.
  - intros self c H. unfold __len__, size, __iter__, __next__.
    rewrite !check_closed_closed by exact H. auto.
Qed.

(** C4. A session is open right after a constructor returned it.  [close]
    on an open session sends the CLOSE opcode followed by the session id,
    consumes one reply, sets the id and the size to [None] and the session
    to closed, and keeps every other attribute.  [close] on a closed
    session returns without sending anything and changes nothing.  Whenever
    [close] returns, [is_closed] is true, and it stays true, with the
    transport unused, under any further sequence of operations. *)
Theorem close_life_cycle :
  (forall k c self,
      raised (construct P k c) = None ->
      object (construct P k c) = Some self ->
      is_closed self = false) /\
  (forall self c id opb idb data code rest,
      _closed self = false -> _graph_loader_id self = Some id ->
      pack_byte P GRAPH_LOADER_CLOSE = Ok opb -> pack_uint64 P id = Ok idb ->
      connected c = true -> replies c = Reply data code :: rest ->
      close P self c
      = (Ok tt,
         {| __class__ := __class__ self;
            tensor_store_name := tensor_store_name self;
            batch_size := batch_size self;
            num_neighbors := num_neighbors self;
            _graph_loader_id := None;
            _size := None;
            _closed := true;
            num_seeds := num_seeds self;
            seed_ids := seed_ids self |},
         {| connected := true; sent := sent c ++ [opb ++ idb];
            replies := rest |})) /\
  (forall self c self' c',
      _closed self = false ->
      close P self c = (Ok tt, self', c') ->
      _graph_loader_id self' = None /\ _size self' = None /\
      _closed self' = true) /\
  (forall self c, _closed self = true -> close P self c = (Ok tt, self, c)) /\
  (forall self c self' c',
      close P self c = (Ok tt, self', c') -> is_closed self' = true) /\
  (forall ops self c,
      _closed self = true -> run P ops self c = (self, c)).
Proof.
  split; [|split; [|split; [|split; [|split]]]].
  - intros k c self Hr Ho.
    pose proof (construct_consistent k c) as Hc.
    unfold attempt_consistent in Hc. rewrite Ho, Hr in Hc. exact Hc.
  - intros self c id opb idb data code rest Hopen Hid Hop Hidb Hconn Hrep.
    step_py. rewrite Hopen. cbn [negb]. rewrite Hop, Hid, Hidb, Hconn.
    cbn [replies connected sent]. rewrite Hrep. reflexivity.
  - intros self c self' c' Hopen Hclose.
    rewrite (close_returns_cleared self self' c c' Hopen Hclose).
    cbn [_graph_loader_id _size _closed]. auto.
  - intros self c. apply close_closed.
  - intros self c self' c'. apply close_returns_closed.
  - intros ops self c. apply run_closed.
Qed.

(** C10. The base constructor leaves the object closed, without id and
    without size.  A constructor call that raises after the base
    constructor has run leaves an object on which [is_closed] is true and
    on which [close] returns without sending anything; an object is open
    only if the constructor call returned. *)
Theorem failed_construction_is_closed :
  (forall cls name bs nn self,
      GraphLoader__init__ cls name bs nn = Ok self ->
      _graph_loader_id self = None /\ _size self = None /\
      _closed self = true) /\
  (forall k c e self,
      raised (construct P k c) = Some e ->
      object (construct P k c) = Some self ->
      is_closed self = true /\
      forall c', close P self c' = (Ok tt, self, c')) /\
  (forall k c self,
      object (construct P k c) = Some self ->
      is_closed self = false ->
      raised (construct P k c) = None).
Proof.
  split; [|split].
  - intros cls name bs nn self Hb. apply base_init_closed in Hb. exact Hb.
  - intros k c e self Hr Ho.
    assert (Hclosed : _closed self = true).
    { pose proof (construct_consistent k c) as Hc.
      unfold attempt_consistent in Hc. rewrite Ho, Hr in Hc. exact Hc. }
    split; [exact Hclosed|].
    intros c'. apply close_closed. exact Hclosed.
  - intros k c self Ho Hopen.
    pose proof (construct_consistent k c) as Hc.
    unfold attempt_consistent in Hc. rewrite Ho in Hc.
    destruct (raised (construct P k c)); [|reflexivity].
    unfold is_closed in Hopen. congruence.
Qed.

(** ** Construction: validation and wire layout *)

(** Receiving does not touch the record of sent messages. *)
Lemma handle_new_response_sent (self : GraphLoader) (c : MDBClient) :
  sent (snd (handle_new_response P self c)) = sent c.
Proof.
  unfold handle_new_response. step_py.
  destruct (replies c) as [|[data code|e] rest]; cbn; try reflexivity.
  destruct (unpack_uint64 P (slice data 0 8)); cbn; try reflexivity.
  destruct (unpack_uint64 P (slice data 8 16)); cbn; reflexivity.
Qed.

Lemma base_init_fields (cls : Class) (name : string) (bs : Z) (nn : list Z)
    (self : GraphLoader) :
  GraphLoader__init__ cls name bs nn = Ok self ->
  tensor_store_name self = name /\ batch_size self = bs /\
  num_neighbors self = stored_neighbors nn /\
  num_seeds self = None /\ seed_ids self = None.
Proof.
  unfold GraphLoader__init__.
  destruct (bs <? 1); [discriminate|].
  destruct (len nn =? 0); [discriminate|].
  intros [= <-]. cbn. auto.
Qed.

Lemma base_init_valid (cls : Class) (name : string) (bs : Z) (nn : list Z) :
  (1 <=? bs) && negb (len nn =? 0) = true ->
  exists self, GraphLoader__init__ cls name bs nn = Ok self.
Proof.
  unfold GraphLoader__init__. intros H.
  apply andb_prop in H as [Hbs Hnn].
  destruct (Z.ltb_spec bs 1); [apply Z.leb_le in Hbs; lia|].
  destruct (len nn =? 0); [discriminate|].
  eexists. reflexivity.
Qed.

Lemma base_init_invalid (cls : Class) (name : string) (bs : Z) (nn : list Z) :
  (1 <=? bs) && negb (len nn =? 0) = false ->
  exists msg, GraphLoader__init__ cls name bs nn = Raise (ValueError msg).
Proof.
  unfold GraphLoader__init__. intros H.
  destruct (Z.ltb_spec bs 1); [eexists; reflexivity|].
  destruct (len nn =? 0); [eexists; reflexivity|].
  destruct (Z.leb_spec 1 bs); [discriminate|lia].
Qed.

Lemma client_after_base (self : GraphLoader) (rest : Py unit)
    (c : MDBClient) :
  client (after_base (Ok self) rest c) = snd (rest self c).
Proof.
  unfold after_base. destruct (rest self c) as [[[u|e] self'] c']; reflexivity.
Qed.

Lemma eval_new_sent (self : GraphLoader) (c : MDBClient) :
  sent (snd (EvalGraphLoader_new P self c))
  = sent_after c (EVAL_NEW P (batch_size self) (num_neighbors self)
                    (tensor_store_name self)).
Proof.
  unfold EVAL_NEW, sent_after, rbind. unfold_new.
  repeat (case_pack; try reflexivity).
  rewrite handle_new_response_sent. cbn [sent app].
  rewrite <- !app_assoc. reflexivity.
Qed.

Lemma sampling_new_sent (self : GraphLoader) (c : MDBClient) (ns : Z) :
  num_seeds self = Some ns ->
  sent (snd (SamplingGraphLoader_new P self c))
  = sent_after c (SAMPLING_NEW P (batch_size self) ns (num_neighbors self)
                    (tensor_store_name self)).
Proof.
  intros Hns. unfold SAMPLING_NEW, sent_after, rbind. unfold_new.
  rewrite Hns. cbn [hasattr].
  repeat (case_pack; try reflexivity).
  rewrite handle_new_response_sent. cbn [sent app].
  rewrite <- !app_assoc. reflexivity.
Qed.

Lemma train_new_sent (self : GraphLoader) (c : MDBClient) (ids : list Z) :
  seed_ids self = Some ids ->
  sent (snd (TrainGraphLoader_new P self c))
  = sent_after c (TRAIN_NEW P (batch_size self) (num_neighbors self)
                    (tensor_store_name self) ids).
Proof.
  intros Hids. unfold TRAIN_NEW, sent_after, rbind. unfold_new.
  rewrite Hids. cbn [hasattr].
  repeat (case_pack; try reflexivity).
  rewrite handle_new_response_sent. cbn [sent app].
  rewrite <- !app_assoc. reflexivity.
Qed.

(** A constructor call with invalid arguments raises [ValueError] and
    leaves the transport as it found it. *)
Lemma construct_invalid (k : construction) (c : MDBClient) :
  valid_arguments k = false ->
  (exists msg, raised (construct P k c) = Some (ValueError msg)) /\
  client (construct P k c) = c.
Proof.
  destruct k as [name bs nn|name bs nn ns|name bs nn ids];
    cbn [valid_arguments construct]; intros Hv.
  - unfold EvalGraphLoader__init__.
    destruct (base_init_invalid EvalGraphLoader name bs nn Hv) as [msg ->].
    cbn. split; [eexists|]; reflexivity.
  - unfold SamplingGraphLoader__init__.
    destruct (Z.ltb_spec ns 1).
    + cbn. split; [eexists|]; reflexivity.
    + assert (Hb : (1 <=? bs) && negb (len nn =? 0) = false).
      { destruct ((1 <=? bs) && negb (len nn =? 0)); [|reflexivity].
        cbn in Hv. apply Z.leb_gt in Hv. lia. }
      destruct (base_init_invalid SamplingGraphLoader name bs nn Hb)
        as [msg ->].
      cbn. split; [eexists|]; reflexivity.
  - unfold TrainGraphLoader__init__.
    destruct ((1 <=? bs) && negb (len nn =? 0)) eqn:Hb.
    + destruct (base_init_valid TrainGraphLoader name bs nn Hb) as [self ->].
      cbn in Hv. apply negb_false_iff in Hv.
      unfold after_base, bind at 1. rewrite Hv. cbn.
      split; [eexists|]; reflexivity.
    + destruct (base_init_invalid TrainGraphLoader name bs nn Hb) as [msg ->].
      cbn. split; [eexists|]; reflexivity.
Qed.

(** The record of sent messages after a constructor call. *)
Lemma construct_sent (k : construction) (c : MDBClient) :
  sent (client (construct P k c))
  = if valid_arguments k then sent_after c (creation_layout P k) else sent c.
Proof.
  destruct (valid_arguments k) eqn:Hv.
  2:{ destruct (construct_invalid k c Hv) as [_ ->]. reflexivity. }
  destruct k as [name bs nn|name bs nn ns|name bs nn ids];
    cbn [valid_arguments construct creation_layout] in *.
  - unfold EvalGraphLoader__init__.
    destruct (base_init_valid EvalGraphLoader name bs nn Hv) as [self Hb].
    rewrite Hb. apply base_init_fields in Hb as (Hn & Hbs & Hnn & _).
    rewrite client_after_base, eval_new_sent, Hn, Hbs, Hnn. reflexivity.
  - apply andb_prop in Hv as [Hv Hns].
    unfold SamplingGraphLoader__init__.
    destruct (Z.ltb_spec ns 1); [apply Z.leb_le in Hns; lia|].
    destruct (base_init_valid SamplingGraphLoader name bs nn Hv) as [self Hb].
    rewrite Hb. apply base_init_fields in Hb as (Hn & Hbs & Hnn & _).
    rewrite client_after_base. unfold bind at 1. unfold setattr.
    rewrite (sampling_new_sent _ c ns) by reflexivity.
    cbn [batch_size num_neighbors tensor_store_name set_num_seeds].
    rewrite Hn, Hbs, Hnn. reflexivity.
  - apply andb_prop in Hv as [Hv Hids]. apply negb_true_iff in Hids.
    unfold TrainGraphLoader__init__.
    destruct (base_init_valid TrainGraphLoader name bs nn Hv) as [self Hb].
    rewrite Hb. apply base_init_fields in Hb as (Hn & Hbs & Hnn & _).
    rewrite client_after_base. unfold bind at 1. rewrite Hids.
    cbn [ret]. unfold bind at 1. unfold setattr.
    rewrite (train_new_sent _ c ids) by reflexivity.
    cbn [batch_size num_neighbors tensor_store_name set_seed_ids].
    rewrite Hn, Hbs, Hnn. reflexivity.
Qed.

(** C8. A constructor call with [batch_size < 1], with an empty
    [num_neighbors], with [num_seeds < 1] on the sampling variant or with an
    empty [seed_ids] on the training variant raises [ValueError], and the
    transport is as it was before the call: nothing was sent and no reply
    was consumed. *)
Theorem invalid_arguments_raise_before_io (k : construction)
    (c : MDBClient) :
  given_batch_size k < 1 \/
  given_num_neighbors k = [] \/
  (exists name bs nn ns, k = NewSampling name bs nn ns /\ ns < 1) \/
  (exists name bs nn, k = NewTrain name bs nn []) ->
  (exists msg, raised (construct P k c) = Some (ValueError msg)) /\
  client (construct P k c) = c.
Proof.
  intros H. apply construct_invalid.
  destruct H as [H|[H|[(name & bs & nn & ns & -> & H)|(name & bs & nn & ->)]]].
  - assert ((1 <=? given_batch_size k) = false) as Hb by (apply Z.leb_gt; lia).
    destruct k; cbn in *; rewrite Hb; reflexivity.
  - destruct k; cbn in *; subst; cbn; rewrite ?andb_false_r; reflexivity.
  - cbn. apply Z.leb_gt in H. rewrite H. apply andb_false_r.
  - cbn. apply andb_false_r.
Qed.

(** C6. The one message a constructor call can send is the creation message
    of its variant: the opcode, then [batch_size], then for the sampling
    variant [num_seeds], then the length of [num_neighbors] and the length
    of [tensor_store_name], then for the training variant the length of
    [seed_ids], then the [num_neighbors] vector and the name bytes, then for
    the training variant the [seed_ids] vector.  With valid arguments, a
    connected transport and fields the packer accepts, that message is
    sent. *)
Theorem creation_message_layout (k : construction) (c : MDBClient) :
  (sent (client (construct P k c)) = sent c \/
   exists m, creation_layout P k = Ok m /\
             sent (client (construct P k c)) = sent c ++ [m]) /\
  (forall m, valid_arguments k = true -> connected c = true ->
             creation_layout P k = Ok m ->
             sent (client (construct P k c)) = sent c ++ [m]).
Proof.
  rewrite construct_sent. unfold sent_after. split.
  - destruct (valid_arguments k); [|left; reflexivity].
    destruct (creation_layout P k) as [m|e]; [|left; reflexivity].
    destruct (connected c); [|left; reflexivity].
    right. exists m. split; reflexivity.
  - intros m -> -> ->. reflexivity.
Qed.



Lemma object_after_base (self self' : GraphLoader) (rest : Py unit)
    (c : MDBClient) :
  object (after_base (Ok self) rest c) = Some self' ->
  self' = snd (fst (rest self c)).
Proof.
  unfold after_base. destruct (rest self c) as [[[u|e] s] c'];
    cbn; congruence.
Qed.








(** ** Session requests *)

(** Case analysis along the body of [__next__], [_begin] or [_close]. *)
Ltac case_session :=
  match goal with
  | |- context [match pack_byte ?p ?x with _ => _ end] =>
      destruct (pack_byte p x) eqn:?
  | |- context [match _graph_loader_id ?s with _ => _ end] =>
      destruct (_graph_loader_id s) eqn:?
  | |- context [match pack_uint64 ?p ?x with _ => _ end] =>
      destruct (pack_uint64 p x) eqn:?
  | |- context [if connected ?c then _ else _] =>
      destruct (connected c) eqn:?
  | |- context [match replies ?c with _ => _ end] =>
      destruct (replies c) as [|[? ?|?] ?] eqn:?
  | |- context [if StatusCode_eqb ?a ?b then _ else _] =>
      destruct (StatusCode_eqb a b)
  | |- context [match decode ?p ?d with _ => _ end] =>
      destruct (decode p d)
  end.

(** What [__next__], [__iter__] and [close] put on the wire. *)
Lemma session_call_sent (op : operation) (r : RequestType)
    (self : GraphLoader) (c : MDBClient) :
  request_of op = Some r ->
  sent (snd (call P op self c))
  = if _closed self then sent c
    else sent_after c (session_request P r (_graph_loader_id self)).
Proof.
  unfold sent_after, session_request, rbind.
  destruct op; try discriminate; intros [= <-]; cbn [call];
    unfold __iter__, __next__; step_py;
    destruct (_closed self); cbn [negb]; try reflexivity;
    repeat (case_session; cbn [replies sent connected snd app];
            try reflexivity).
Qed.

(** C7. A message that [__next__], [__iter__] or [close] sends is the
    packed opcode of the request followed by the packed session id, with
    nothing before, between or after; it is the only message of the call;
    and an open session on a connected transport does send it. *)
Theorem session_requests_layout (op : operation) (r : RequestType)
    (self : GraphLoader) (c : MDBClient) :
  request_of op = Some r ->
  (sent (snd (call P op self c)) = sent c \/
   exists id opb idb,
     _closed self = false /\ _graph_loader_id self = Some id /\
     pack_byte P r = Ok opb /\ pack_uint64 P id = Ok idb /\
     sent (snd (call P op self c)) = sent c ++ [opb ++ idb]) /\
  (forall id opb idb,
      _closed self = false -> _graph_loader_id self = Some id ->
      pack_byte P r = Ok opb -> pack_uint64 P id = Ok idb ->
      connected c = true ->
      sent (snd (call P op self c)) = sent c ++ [opb ++ idb]).
Proof.
  intros Hr. rewrite (session_call_sent op r self c Hr).
  unfold sent_after, session_request, rbind. split.
  - destruct (_closed self) eqn:Hc; [left; reflexivity|].
    destruct (pack_byte P r) as [opb|] eqn:Hop; [|left; reflexivity].
    destruct (_graph_loader_id self) as [id|] eqn:Hid; [|left; reflexivity].
    cbn [pack_uint64_attr].
    destruct (pack_uint64 P id) as [idb|] eqn:Hidb; [|left; reflexivity].
    destruct (connected c); [|left; reflexivity].
    right. exists id, opb, idb. repeat split; try reflexivity; assumption.
  - intros id opb idb -> -> -> Hid ->. cbn [pack_uint64_attr].
    rewrite Hid. reflexivity.
Qed.

End Session.

(** * Further properties of the loader *)

(** Case analysis along a method body, up to the reply. *)
Ltac case_body :=
  match goal with
  | |- context [match pack_byte ?p ?x with _ => _ end] =>
      destruct (pack_byte p x) eqn:?
  | |- context [match _graph_loader_id ?s with _ => _ end] =>
      destruct (_graph_loader_id s) eqn:?
  | |- context [match pack_uint64 ?p ?x with _ => _ end] =>
      destruct (pack_uint64 p x) eqn:?
  | |- context [if connected ?c then _ else _] =>
      destruct (connected c) eqn:?
  | |- context [match replies ?c with _ => _ end] =>
      destruct (replies c) as [|[? ?|?] ?] eqn:?
  | |- context [if StatusCode_eqb ?a ?b then _ else _] =>
      destruct (StatusCode_eqb a b)
  | |- context [match decode ?p ?d with _ => _ end] =>
      destruct (decode p d)
  | |- context [match unpack_uint64 ?p ?d with _ => _ end] =>
      destruct (unpack_uint64 p d)
  end.

Section Iteration.

Variable P : Packer.

Lemma iter_open (self : GraphLoader) (c : MDBClient)
    (id : Z) (opb idb data : bytes) (code : StatusCode) (rest : list reply) :
  _closed self = false -> _graph_loader_id self = Some id ->
  pack_byte P GRAPH_LOADER_BEGIN = Ok opb -> pack_uint64 P id = Ok idb ->
  connected c = true -> replies c = Reply data code :: rest ->
  __iter__ P self c
  = (Ok tt, self,
     {| connected := true; sent := sent c ++ [opb ++ idb];
        replies := rest |}).
Proof.
  intros Hopen Hid Hop Hidb Hconn Hrep.
  unfold __iter__. step_py.
  rewrite Hopen, Hop, Hid, Hidb, Hconn. cbn [replies connected sent].
  rewrite Hrep. reflexivity.
Qed.

(** [__iter__] on an open session sends BEGIN with the session id, takes one
    reply and returns, whatever the status code and the payload of that
    reply are; the session object is as before. *)
Theorem iter_discards_the_reply (self : GraphLoader) (c : MDBClient)
    (id : Z) (opb idb data : bytes) (code : StatusCode) (rest : list reply) :
  _closed self = false -> _graph_loader_id self = Some id ->
  pack_byte P GRAPH_LOADER_BEGIN = Ok opb -> pack_uint64 P id = Ok idb ->
  connected c = true -> replies c = Reply data code :: rest ->
  __iter__ P self c
  = (Ok tt, self,
     {| connected := true; sent := sent c ++ [opb ++ idb];
        replies := rest |}).
Proof. apply iter_open. Qed.

(** The object after any body of the form request, reply, then [after] on
    success. *)
Lemma call_object (op : operation) (self : GraphLoader) (c : MDBClient) :
  snd (fst (call P op self c)) = self \/
  (op = Close /\ _closed self = false /\
   fst (fst (call P op self c)) = Ok VNone /\
   snd (fst (call P op self c))
   = set_closed true (set_size None (set_graph_loader_id None self))).
Proof.
  destruct op; cbn [call]; unfold __len__, size, __iter__, __next__; step_py.
  - left. reflexivity.
  - destruct (_closed self) eqn:Hc; cbn [negb]; [left; reflexivity|].
    repeat (case_body; cbn [replies sent connected snd fst];
            try (left; reflexivity)).
    right. repeat split; reflexivity.
  - destruct (_closed self); left; reflexivity.
  - destruct (_closed self); left; reflexivity.
  - destruct (_closed self); [left; reflexivity|].
    repeat (case_body; cbn [replies sent connected snd fst];
            try (left; reflexivity)).
  - destruct (_closed self); [left; reflexivity|].
    repeat (case_body; cbn [replies sent connected snd fst];
            try (left; reflexivity)).
Qed.

(** Only [close] changes a session object, and only when it returns: it
    then clears the id and the size and sets the closed flag.  No operation
    changes the class, the name, the batch size, the neighbour counts, the
    number of seeds or the seed ids. *)
Theorem only_close_changes_the_session (op : operation)
    (self : GraphLoader) (c : MDBClient) :
  (op <> Close -> snd (fst (call P op self c)) = self) /\
  (forall e, fst (fst (call P op self c)) = Raise e ->
             snd (fst (call P op self c)) = self) /\
  (snd (fst (call P op self c)) = self \/
   (_graph_loader_id (snd (fst (call P op self c))) = None /\
    _size (snd (fst (call P op self c))) = None /\
    _closed (snd (fst (call P op self c))) = true)) /\
  (let self' := snd (fst (call P op self c)) in
   __class__ self' = __class__ self /\
   tensor_store_name self' = tensor_store_name self /\
   batch_size self' = batch_size self /\
   num_neighbors self' = num_neighbors self /\
   num_seeds self' = num_seeds self /\
   seed_ids self' = seed_ids self).
Proof.
  pose proof (call_object op self c) as [H|(Hop & Hc & Hr & H)].
  - rewrite H. repeat split; auto.
  - rewrite H, Hr. split; [congruence|]. split; [discriminate|].
    split; [right; cbn; auto|]. cbn. auto 7.
Qed.

(** [close] that raises, because a packer call, the send or the receive
    raised, leaves the session object as it was: still open, with its id and
    its size. *)
Theorem failed_close_keeps_the_session_open (self self' : GraphLoader)
    (c c' : MDBClient) (e : exn) :
  close P self c = (Raise e, self', c') ->
  self' = self /\ is_closed self' = false /\
  _graph_loader_id self' = _graph_loader_id self.
Proof.
  intros H. destruct (_closed self) eqn:Hc.
  - rewrite (close_closed P self c Hc) in H. discriminate.
  - assert (Hs : self' = self).
    { revert H. step_py. rewrite Hc. cbn [negb].
      repeat (case_body; cbn [replies sent connected];
              try (intros [= _ <- _]; reflexivity)). }
    subst self'. unfold is_closed. auto.
Qed.

Lemma call_transport (op : operation) (self : GraphLoader)
    (c : MDBClient) :
  let c' := snd (call P op self c) in
  c' = c \/
  (connected c = true /\ connected c' = true /\
   (exists m, sent c' = sent c ++ [m]) /\
   replies c' = tl (replies c)).
Proof.
  destruct op; cbn [call]; unfold __len__, size, __iter__, __next__; step_py;
    try (destruct (_closed self); left; reflexivity);
    try (left; reflexivity);
    (destruct (_closed self); cbn [negb]; [left; reflexivity|]);
    repeat (case_body; cbn [replies sent connected snd fst];
            try (left; reflexivity));
    right; cbn [tl]; repeat split; try reflexivity;
    try (eexists; reflexivity).
Qed.

(** Every operation keeps the strict request-then-reply order of the
    channel: it leaves the transport untouched, or it sends exactly one
    message and takes the next pending reply, if there is one.  It never
    takes a reply without having sent its request. *)
Theorem one_request_one_reply (op : operation) (self : GraphLoader)
    (c : MDBClient) :
  let c' := snd (call P op self c) in
  c' = c \/
  (connected c = true /\ connected c' = true /\
   (exists m, sent c' = sent c ++ [m]) /\
   replies c' = tl (replies c)).
Proof. apply call_transport. Qed.

(** Operations other than [close], in any number and order, leave the
    session object as it was: the id, the size and the configuration are
    those of the creation. *)
Theorem iteration_keeps_the_session (ops : list operation)
    (self : GraphLoader) (c : MDBClient) :
  ~ In Close ops -> fst (run P ops self c) = self.
Proof.
  revert self c. induction ops as [|op ops IH]; intros self c Hn;
    cbn [run]; [reflexivity|].
  assert (Hop : op <> Close) by (intros ->; apply Hn; left; reflexivity).
  pose proof (call_object op self c) as [Hs|(Hc & _)]; [|contradiction].
  destruct (call P op self c) as [[r self'] c'] eqn:Hcall.
  cbn [fst snd] in Hs. subst self'.
  apply IH. intros Hin. apply Hn. right. exact Hin.
Qed.

(** Over any sequence of operations the channel stays in step: the
    messages sent are appended to the record in order, and the replies
    taken are the first ones pending, never more of them than messages
    were sent. *)
Theorem channel_stays_in_step (ops : list operation) (self : GraphLoader)
    (c : MDBClient) :
  exists ms,
    sent (snd (run P ops self c)) = sent c ++ ms /\
    replies (snd (run P ops self c))
    = skipn (List.length ms) (replies c) /\
    (List.length ms <= List.length ops)%nat.
Proof.
  revert self c. induction ops as [|op ops IH]; intros self c; cbn [run].
  - exists []. cbn. rewrite app_nil_r. auto.
  - pose proof (call_transport op self c) as Hstep. cbv zeta in Hstep.
    destruct (call P op self c) as [[r self'] c'] eqn:Hcall.
    cbn [snd] in Hstep.
    destruct (IH self' c') as (ms & Hsent & Hrep & Hlen).
    destruct Hstep as [->|(_ & _ & (m & Hm) & Htl)].
    + exists ms. repeat split; [exact Hsent|exact Hrep|cbn; lia].
    + exists (m :: ms). rewrite Hsent, Hrep, Hm, Htl.
      repeat split; [rewrite <- app_assoc; reflexivity| |cbn; lia].
      destruct (replies c); cbn [tl List.length skipn];
        [rewrite skipn_nil; reflexivity|reflexivity].
Qed.

(** The loop of the for statement, started on an open session whose
    pending replies are the batches and then an end-of-iteration reply. *)
Lemma next_until_stop_collects (self : GraphLoader) (id : Z)
    (nop idb dend : bytes) (rest : list reply)
    (batches : list (bytes * StatusCode * Graph.t)) :
  _closed self = false -> _graph_loader_id self = Some id ->
  pack_byte P GRAPH_LOADER_NEXT = Ok nop -> pack_uint64 P id = Ok idb ->
  Forall (fun b => snd (fst b) <> END_OF_ITERATION /\
                   decode P (fst (fst b)) = Ok (snd b)) batches ->
  forall (fuel : nat) (acc : list Graph.t) (c : MDBClient),
    connected c = true ->
    replies c
    = map (fun b => Reply (fst (fst b)) (snd (fst b))) batches
      ++ Reply dend END_OF_ITERATION :: rest ->
    (List.length batches < fuel)%nat ->
    next_until_stop P fuel acc self c
    = Some (Ok (acc ++ map snd batches), self,
            {| connected := true;
               sent := sent c
                       ++ repeat (nop ++ idb) (S (List.length batches));
               replies := rest |}).
Proof.
  intros Hopen Hid Hop Hidb Hall.
  induction Hall as [|[[data code] g] batches [Hcode Hdec] Hall IH];
    intros fuel acc c Hconn Hrep Hfuel.
  - destruct fuel as [|fuel]; [cbn in Hfuel; lia|].
    cbn [next_until_stop].
    rewrite (next_open P self c id nop idb dend END_OF_ITERATION rest)
      by assumption.
    cbn. rewrite app_nil_r. reflexivity.
  - destruct fuel as [|fuel]; [cbn in Hfuel; lia|].
    cbn [next_until_stop]. cbn [map app fst snd] in Hrep, Hcode, Hdec.
    rewrite (next_open P self c id nop idb data code _ Hopen Hid Hop Hidb
               Hconn Hrep).
    assert (Hne : StatusCode_eqb code END_OF_ITERATION = false)
      by (destruct code; try reflexivity; congruence).
    rewrite Hne, Hdec.
    rewrite IH; [|reflexivity|reflexivity|cbn in Hfuel; lia].
    cbn [sent map snd List.length repeat].
    rewrite <- !app_assoc. reflexivity.
Qed.

(** [for graph in loader] on an open session: when the server answers BEGIN,
    then sends [n] batches and then end-of-iteration, the loop ends
    normally with exactly those [n] graphs in order.  One BEGIN and [n + 1]
    NEXT requests went out, every reply up to the end-of-iteration one was
    taken, and the session is as before, still open. *)
Theorem for_each_collects_the_batches (self : GraphLoader) (c : MDBClient)
    (id : Z) (bop nop idb d0 dend : bytes) (code0 : StatusCode)
    (rest : list reply) (batches : list (bytes * StatusCode * Graph.t))
    (fuel : nat) :
  _closed self = false -> _graph_loader_id self = Some id ->
  pack_byte P GRAPH_LOADER_BEGIN = Ok bop ->
  pack_byte P GRAPH_LOADER_NEXT = Ok nop -> pack_uint64 P id = Ok idb ->
  connected c = true ->
  Forall (fun b => snd (fst b) <> END_OF_ITERATION /\
                   decode P (fst (fst b)) = Ok (snd b)) batches ->
  replies c
  = Reply d0 code0
    :: map (fun b => Reply (fst (fst b)) (snd (fst b))) batches
    ++ Reply dend END_OF_ITERATION :: rest ->
  (List.length batches < fuel)%nat ->
  for_each P fuel self c
  = Some (Ok (map snd batches), self,
          {| connected := true;
             sent := sent c ++ [bop ++ idb]
                     ++ repeat (nop ++ idb) (S (List.length batches));
             replies := rest |}).
Proof.
  intros Hopen Hid Hbop Hnop Hidb Hconn Hall Hrep Hfuel.
  unfold for_each.
  rewrite (iter_open self c id bop idb d0 code0 _
             Hopen Hid Hbop Hidb Hconn Hrep).
  rewrite (next_until_stop_collects self id nop idb dend rest batches
             Hopen Hid Hnop Hidb Hall fuel []);
    [|reflexivity|reflexivity|exact Hfuel].
  cbn [sent app]. rewrite <- app_assoc. reflexivity.
Qed.

End Iteration.

Section Construction.

Variable P : Packer.

(** The reply handling of [_new], case by case. *)
Lemma handle_new_response_run (self : GraphLoader) (c : MDBClient) :
  handle_new_response P self c
  = match replies c with
    | [] => (Raise (TransportError 1), self, c)
    | Failure e :: rest =>
        (Raise e, self,
         {| connected := connected c; sent := sent c; replies := rest |})
    | Reply data _ :: rest =>
        let c' := {| connected := connected c; sent := sent c;
                     replies := rest |} in
        match unpack_uint64 P (slice data 0 8) with
        | Raise e => (Raise e, self, c')
        | Ok id =>
            match unpack_uint64 P (slice data 8 16) with
            | Raise e => (Raise e, set_graph_loader_id (Some id) self, c')
            | Ok sz =>
                (Ok tt,
                 set_closed false
                   (set_size (Some sz) (set_graph_loader_id (Some id) self)),
                 c')
            end
        end
    end.
Proof.
  unfold handle_new_response. step_py.
  destruct (replies c) as [|[data code|e] rest]; cbn; reflexivity.
Qed.

Lemma eval_new_run (self : GraphLoader) (c : MDBClient) :
  EvalGraphLoader_new P self c
  = create P (EVAL_NEW P (batch_size self) (num_neighbors self)
                (tensor_store_name self)) self c.
Proof.
  unfold create, EVAL_NEW, rbind. unfold_new.
  repeat (case_pack; try reflexivity).
  cbn [app]. rewrite <- !app_assoc. reflexivity.
Qed.

Lemma sampling_new_run (self : GraphLoader) (c : MDBClient) (ns : Z) :
  num_seeds self = Some ns ->
  SamplingGraphLoader_new P self c
  = create P (SAMPLING_NEW P (batch_size self) ns (num_neighbors self)
                (tensor_store_name self)) self c.
Proof.
  intros Hns. unfold create, SAMPLING_NEW, rbind. unfold_new.
  rewrite Hns. cbn [hasattr].
  repeat (case_pack; try reflexivity).
  cbn [app]. rewrite <- !app_assoc. reflexivity.
Qed.

Lemma train_new_run (self : GraphLoader) (c : MDBClient) (ids : list Z) :
  seed_ids self = Some ids ->
  TrainGraphLoader_new P self c
  = create P (TRAIN_NEW P (batch_size self) (num_neighbors self)
                (tensor_store_name self) ids) self c.
Proof.
  intros Hids. unfold create, TRAIN_NEW, rbind. unfold_new.
  rewrite Hids. cbn [hasattr].
  repeat (case_pack; try reflexivity).
  cbn [app]. rewrite <- !app_assoc. reflexivity.
Qed.

Lemma base_init_run (cls : Class) (name : string) (bs : Z) (nn : list Z) :
  (1 <=? bs) && negb (len nn =? 0) = true ->
  GraphLoader__init__ cls name bs nn
  = Ok {| __class__ := cls; tensor_store_name := name; batch_size := bs;
          num_neighbors := stored_neighbors nn;
          _graph_loader_id := None; _size := None; _closed := true;
          num_seeds := None; seed_ids := None |}.
Proof.
  intros H. apply andb_prop in H as [Hbs Hnn].
  unfold GraphLoader__init__.
  destruct (Z.ltb_spec bs 1); [apply Z.leb_le in Hbs; lia|].
  destruct (len nn =? 0); [discriminate|]. reflexivity.
Qed.

(** A constructor call whose arguments pass the checks runs [create] on the
    object that holds the arguments. *)
Lemma construct_valid (k : construction) (c : MDBClient) :
  valid_arguments k = true ->
  construct P k c
  = after_base (Ok (before_new k)) (create P (creation_layout P k)) c.
Proof.
  destruct k as [name bs nn|name bs nn ns|name bs nn ids];
    cbn [valid_arguments construct creation_layout]; intros Hv.
  - unfold EvalGraphLoader__init__.
    rewrite (base_init_run _ name bs nn Hv).
    unfold after_base. rewrite eval_new_run. reflexivity.
  - apply andb_prop in Hv as [Hv Hns].
    unfold SamplingGraphLoader__init__.
    destruct (Z.ltb_spec ns 1); [apply Z.leb_le in Hns; lia|].
    rewrite (base_init_run _ name bs nn Hv).
    unfold after_base, bind at 1. unfold setattr.
    rewrite (sampling_new_run _ c ns) by reflexivity. reflexivity.
  - apply andb_prop in Hv as [Hv Hids]. apply negb_true_iff in Hids.
    unfold TrainGraphLoader__init__.
    rewrite (base_init_run _ name bs nn Hv).
    unfold after_base, bind at 1. rewrite Hids. cbn [ret].
    unfold bind at 1. unfold setattr.
    rewrite (train_new_run _ c ids) by reflexivity. reflexivity.
Qed.

(** A constructor call with valid arguments, a connected transport and
    fields the packer accepts, answered by a reply whose bytes 0 to 8 and 8
    to 16 unpack, returns an open session.  The session holds the arguments
    as given, with the neighbour counts normalised, the id and the size as
    unpacked.  The status code of the reply and any byte after the first 16
    play no part. *)
Theorem construction_opens_the_session (k : construction) (c : MDBClient)
    (m data : bytes) (code : StatusCode) (rest : list reply) (id sz : Z) :
  valid_arguments k = true -> creation_layout P k = Ok m ->
  connected c = true -> replies c = Reply data code :: rest ->
  unpack_uint64 P (slice data 0 8) = Ok id ->
  unpack_uint64 P (slice data 8 16) = Ok sz ->
  construct P k c
  = {| raised := None;
       object :=
         Some (set_closed false
                 (set_size (Some sz)
                    (set_graph_loader_id (Some id) (before_new k))));
       client := {| connected := true; sent := sent c ++ [m];
                    replies := rest |} |}.
Proof.
  intros Hv Hm Hconn Hrep Hid Hsz.
  rewrite (construct_valid k c Hv). unfold after_base, create.
  rewrite Hm, Hconn, handle_new_response_run. cbn [replies connected sent].
  rewrite Hrep. cbn zeta. rewrite Hid, Hsz. reflexivity.
Qed.

(** When the first eight bytes of the creation reply unpack and the next
    eight do not, the constructor raises and leaves a closed object without
    size that already carries the session id: [close] on it sends nothing,
    so this object never releases the session the server opened. *)
Theorem half_parsed_reply_keeps_the_id (k : construction) (c : MDBClient)
    (m data : bytes) (code : StatusCode) (rest : list reply) (id : Z)
    (e : exn) :
  valid_arguments k = true -> creation_layout P k = Ok m ->
  connected c = true -> replies c = Reply data code :: rest ->
  unpack_uint64 P (slice data 0 8) = Ok id ->
  unpack_uint64 P (slice data 8 16) = Raise e ->
  exists self,
    construct P k c
    = {| raised := Some e;
         object := Some self;
         client := {| connected := true; sent := sent c ++ [m];
                      replies := rest |} |} /\
    _graph_loader_id self = Some id /\
    _size self = None /\
    is_closed self = true /\
    forall c', close P self c' = (Ok tt, self, c').
Proof.
  intros Hv Hm Hconn Hrep Hid Hsz.
  exists (set_graph_loader_id (Some id) (before_new k)).
  split; [|split; [|split; [|split]]].
  - rewrite (construct_valid k c Hv). unfold after_base, create.
    rewrite Hm, Hconn, handle_new_response_run. cbn [replies connected sent].
    rewrite Hrep. cbn zeta. rewrite Hid, Hsz. reflexivity.
  - reflexivity.
  - reflexivity.
  - reflexivity.
  - intros c'. apply close_closed. reflexivity.
Qed.

(** The checks of a constructor run in a fixed order, and the first one
    that fails decides the message: [num_seeds] of the sampling variant
    before everything else, then [batch_size], then [num_neighbors], and
    [seed_ids] of the training variant last. *)
Theorem first_failed_check_decides (c : MDBClient) :
  (forall name bs nn ns,
      ns < 1 ->
      raised (construct P (NewSampling name bs nn ns) c)
      = Some (ValueError "num_seeds must be a positive integer")) /\
  (forall k,
      (forall name bs nn ns, k = NewSampling name bs nn ns -> 1 <= ns) ->
      given_batch_size k < 1 ->
      raised (construct P k c)
      = Some (ValueError "batch_size must be a positive integer")) /\
  (forall k,
      (forall name bs nn ns, k = NewSampling name bs nn ns -> 1 <= ns) ->
      1 <= given_batch_size k -> given_num_neighbors k = [] ->
      raised (construct P k c)
      = Some (ValueError "num_neighbors must be non-empty")) /\
  (forall name bs nn,
      1 <= bs -> nn <> [] ->
      raised (construct P (NewTrain name bs nn []) c)
      = Some (ValueError "seed_ids must be non-empty")).
Proof.
  split; [|split; [|split]].
  - intros name bs nn ns Hns. cbn [construct].
    unfold SamplingGraphLoader__init__.
    destruct (Z.ltb_spec ns 1); [reflexivity|lia].
  - intros k Hs Hbs.
    destruct k as [name bs nn|name bs nn ns|name bs nn ids];
      cbn [construct given_batch_size] in *;
      unfold EvalGraphLoader__init__, SamplingGraphLoader__init__,
        TrainGraphLoader__init__, GraphLoader__init__.
    + destruct (Z.ltb_spec bs 1); [reflexivity|lia].
    + specialize (Hs name bs nn ns eq_refl).
      destruct (Z.ltb_spec ns 1); [lia|].
      destruct (Z.ltb_spec bs 1); [reflexivity|lia].
    + destruct (Z.ltb_spec bs 1); [reflexivity|lia].
  - intros k Hs Hbs Hnn.
    destruct k as [name bs nn|name bs nn ns|name bs nn ids];
      cbn [construct given_batch_size given_num_neighbors] in *; subst nn;
      unfold EvalGraphLoader__init__, SamplingGraphLoader__init__,
        TrainGraphLoader__init__, GraphLoader__init__.
    + destruct (Z.ltb_spec bs 1); [lia|reflexivity].
    + specialize (Hs name bs [] ns eq_refl).
      destruct (Z.ltb_spec ns 1); [lia|].
      destruct (Z.ltb_spec bs 1); [lia|reflexivity].
    + destruct (Z.ltb_spec bs 1); [lia|reflexivity].
  - intros name bs nn Hbs Hnn. cbn [construct].
    unfold TrainGraphLoader__init__.
    rewrite base_init_run.
    + reflexivity.
    + apply andb_true_intro. split; [apply Z.leb_le; exact Hbs|].
      destruct nn; [contradiction|reflexivity].
Qed.

Lemma stored_neighbors_nonneg (nn : list Z) :
  Forall (fun n => 0 <= n) (stored_neighbors nn).
Proof.
  unfold stored_neighbors. apply Forall_map. apply Forall_forall.
  intros x _. destruct (Z.ltb_spec x 0); lia.
Qed.

(** The object a constructor with valid arguments leaves differs from the
    object that holds the arguments in id, size and closed flag only. *)
Lemma construct_valid_object (k : construction) (c : MDBClient)
    (self : GraphLoader) :
  valid_arguments k = true ->
  object (construct P k c) = Some self ->
  exists id sz cl,
    self = set_closed cl (set_size sz (set_graph_loader_id id (before_new k))).
Proof.
  intros Hv. rewrite (construct_valid k c Hv).
  intros Ho. apply object_after_base in Ho. subst self.
  unfold create. destruct (creation_layout P k) as [m|e].
  2:{ exists None, None, true. reflexivity. }
  destruct (connected c).
  2:{ exists None, None, true. reflexivity. }
  rewrite handle_new_response_run. cbn [replies].
  destruct (replies c) as [|[data code|e] rest].
  - exists None, None, true. reflexivity.
  - cbn zeta. destruct (unpack_uint64 P (slice data 0 8)) as [id|e].
    + destruct (unpack_uint64 P (slice data 8 16)) as [sz|e].
      * exists (Some id), (Some sz), false. reflexivity.
      * exists (Some id), None, true. reflexivity.
    + exists None, None, true. reflexivity.
  - exists None, None, true. reflexivity.
Qed.

Lemma base_init_ok_valid (cls : Class) (name : string) (bs : Z)
    (nn : list Z) (s : GraphLoader) :
  GraphLoader__init__ cls name bs nn = Ok s ->
  (1 <=? bs) && negb (len nn =? 0) = true.
Proof.
  intros H. destruct ((1 <=? bs) && negb (len nn =? 0)) eqn:Hb;
    [reflexivity|].
  destruct (base_init_invalid cls name bs nn Hb) as [msg Hm]. congruence.
Qed.

(** The only object a constructor call with invalid arguments can leave is
    the one the base constructor made. *)
Lemma construct_invalid_object (k : construction) (c : MDBClient)
    (self : GraphLoader) :
  valid_arguments k = false ->
  object (construct P k c) = Some self ->
  exists cls name bs nn,
    (1 <=? bs) && negb (len nn =? 0) = true /\
    self = {| __class__ := cls; tensor_store_name := name; batch_size := bs;
              num_neighbors := stored_neighbors nn;
              _graph_loader_id := None; _size := None; _closed := true;
              num_seeds := None; seed_ids := None |}.
Proof.
  destruct k as [name bs nn|name bs nn ns|name bs nn ids];
    cbn [valid_arguments construct]; intros Hv.
  - unfold EvalGraphLoader__init__.
    destruct (GraphLoader__init__ _ name bs nn) as [s|e] eqn:Hb;
      [|discriminate].
    apply base_init_ok_valid in Hb. congruence.
  - unfold SamplingGraphLoader__init__.
    destruct (Z.ltb_spec ns 1); [discriminate|].
    destruct (GraphLoader__init__ _ name bs nn) as [s|e] eqn:Hb;
      [|discriminate].
    apply base_init_ok_valid in Hb. rewrite Hb in Hv. cbn in Hv.
    apply Z.leb_gt in Hv. lia.
  - unfold TrainGraphLoader__init__.
    destruct (GraphLoader__init__ _ name bs nn) as [s|e] eqn:Hb;
      [|discriminate].
    pose proof (base_init_ok_valid _ _ _ _ _ Hb) as Hbase.
    rewrite Hbase in Hv. cbn in Hv. apply negb_false_iff in Hv.
    rewrite (base_init_run _ name bs nn Hbase) in Hb.
    injection Hb as <-.
    unfold after_base, bind at 1. rewrite Hv. cbn [raise object].
    intros [= <-]. exists TrainGraphLoader, name, bs, nn. auto.
Qed.

(** Every object that a constructor call leaves holds a positive batch
    size and a non-empty list of neighbour counts without negative entry;
    when the call returned, a sampling session holds a positive number of
    seeds and a training session a non-empty list of seed ids. *)
Theorem constructed_sessions_are_well_formed (k : construction)
    (c : MDBClient) (self : GraphLoader) :
  object (construct P k c) = Some self ->
  (1 <= batch_size self /\
   num_neighbors self <> [] /\
   Forall (fun n => 0 <= n) (num_neighbors self)) /\
  (raised (construct P k c) = None ->
   match __class__ self with
   | EvalGraphLoader => True
   | SamplingGraphLoader => exists ns, num_seeds self = Some ns /\ 1 <= ns
   | TrainGraphLoader => exists ids, seed_ids self = Some ids /\ ids <> []
   end).
Proof.
  intros Ho. destruct (valid_arguments k) eqn:Hv.
  - destruct (construct_valid_object k c self Hv Ho) as (id & sz & cl & ->).
    cbn [batch_size num_neighbors __class__ num_seeds seed_ids
         set_closed set_size set_graph_loader_id before_new].
    split; [split; [|split]|].
    + destruct k; cbn in Hv; repeat (apply andb_prop in Hv as [Hv ?]);
        apply Z.leb_le in Hv; exact Hv.
    + destruct k as [name bs nn|name bs nn ns|name bs nn ids];
        cbn in Hv; repeat (apply andb_prop in Hv as [Hv ?]);
        destruct nn; try discriminate; cbn; discriminate.
    + apply stored_neighbors_nonneg.
    + intros _.
      destruct k as [name bs nn|name bs nn ns|name bs nn ids];
        cbn in Hv; [exact I| |].
      * apply andb_prop in Hv as [_ Hns]. apply Z.leb_le in Hns.
        exists ns. auto.
      * apply andb_prop in Hv as [_ Hids]. exists ids. split; [reflexivity|].
        destruct ids; [discriminate|discriminate].
  - destruct (construct_invalid P k c Hv) as [[msg Hr] _].
    split; [|rewrite Hr; discriminate].
    destruct (construct_invalid_object k c self Hv Ho)
      as (cls & name & bs & nn & Hb & ->).
    cbn [batch_size num_neighbors].
    apply andb_prop in Hb as [Hbs Hnn]. apply Z.leb_le in Hbs.
    split; [exact Hbs|split; [|apply stored_neighbors_nonneg]].
    destruct nn; [discriminate|cbn; discriminate].
Qed.

Lemma base_init_same_stored (cls : Class) (name : string) (bs : Z)
    (nn nn' : list Z) :
  stored_neighbors nn' = stored_neighbors nn ->
  GraphLoader__init__ cls name bs nn' = GraphLoader__init__ cls name bs nn.
Proof.
  intros H. unfold GraphLoader__init__.
  assert (Hlen : len nn' = len nn).
  { apply (f_equal (@List.length Z)) in H. unfold stored_neighbors in H.
    rewrite !length_map in H. unfold len. congruence. }
  rewrite Hlen. unfold stored_neighbors in H. rewrite H. reflexivity.
Qed.

(** A constructor call depends on its [num_neighbors] argument only through
    the normalised list: two lists that differ only in which negative
    numbers they use, or that use [2^64 - 1] where the other has a negative
    number, give the same object, the same exception and the same
    messages. *)
Theorem negative_counts_are_interchangeable (k : construction)
    (nn' : list Z) (c : MDBClient) :
  stored_neighbors nn' = stored_neighbors (given_num_neighbors k) ->
  construct P (with_num_neighbors k nn') c = construct P k c.
Proof.
  destruct k as [name bs nn|name bs nn ns|name bs nn ids];
    cbn [given_num_neighbors with_num_neighbors construct]; intros H;
    unfold EvalGraphLoader__init__, SamplingGraphLoader__init__,
      TrainGraphLoader__init__;
    rewrite (base_init_same_stored _ name bs nn nn' H); reflexivity.
Qed.

(** A constructor call keeps the request-then-reply order of the channel:
    it leaves the transport untouched, or it sends exactly one message and
    takes the next pending reply, if there is one. *)
Theorem construction_is_one_round_trip (k : construction) (c : MDBClient) :
  client (construct P k c) = c \/
  (connected c = true /\
   connected (client (construct P k c)) = true /\
   (exists m, creation_layout P k = Ok m /\
              sent (client (construct P k c)) = sent c ++ [m]) /\
   replies (client (construct P k c)) = tl (replies c)).
Proof.
  destruct (valid_arguments k) eqn:Hv.
  2:{ left. apply (construct_invalid P k c Hv). }
  rewrite (construct_valid k c Hv), client_after_base. unfold create.
  destruct (creation_layout P k) as [m|e]; [|left; reflexivity].
  destruct (connected c) eqn:Hconn; [|left; reflexivity].
  right. rewrite handle_new_response_run. cbn [replies connected sent].
  destruct (replies c) as [|[data code|e] rest]; cbn zeta;
    repeat (case_body; cbn [snd]);
    cbn [snd connected sent replies tl];
    (split; [reflexivity|split; [reflexivity|split; [|reflexivity]]]);
    exists m; split; reflexivity.
Qed.

End Construction.

Section Short_payloads.

Variable P : Packer.

(** The number of items of a slice with non-negative bounds. *)
Lemma len_slice {A : Type} (data : list A) (lo hi : Z) :
  0 <= lo -> 0 <= hi ->
  len (slice data lo hi)
  = Z.max 0 (Z.min hi (len data) - Z.min lo (len data)).
Proof.
  intros Hlo Hhi. unfold slice, slice_bound.
  destruct (Z.ltb_spec lo 0); [lia|].
  destruct (Z.ltb_spec hi 0); [lia|].
  unfold len. rewrite length_firstn, length_skipn. lia.
Qed.

(** A slice that starts where the last segment starts and ends at or after
    the end of the data is that segment, however short. *)
Lemma slice_last_segment {A : Type} (pre mid : list A) (lo hi : Z) :
  lo = len pre -> lo + len mid <= hi ->
  slice (pre ++ mid) lo hi = mid.
Proof.
  intros -> Hhi. unfold slice, slice_bound. rewrite len_app.
  pose proof (len_nonneg pre). pose proof (len_nonneg mid).
  destruct (Z.ltb_spec (len pre) 0); [lia|].
  destruct (Z.ltb_spec hi 0); [lia|].
  rewrite (Z.min_l (len pre)) by lia.
  rewrite (Z.min_r hi) by lia.
  replace (len pre + len mid - len pre) with (len mid) by lia.
  unfold len. rewrite !Nat2Z.id.
  rewrite skipn_app, skipn_all, Nat.sub_diag. simpl.
  apply firstn_all.
Qed.

(** [decode] does not compare the number of node ids with [num_nodes]: on a
    payload that ends early inside the node-id section it returns a batch
    whose [node_ids] are what the packer unpacks from the bytes that are
    left.  As for any batch, the sizes, the labels and the edge endpoints
    have to fit a signed 64-bit integer. *)
Theorem decode_accepts_a_short_id_section
    (h_nodes h_edges h_seeds h_fsize fb lb eb ib : bytes)
    (nn ne ns fs : Z) (feats : list float32) (labels edges ids : list Z) :
  len h_nodes = 8 -> unpack_uint64 P h_nodes = Ok nn ->
  len h_edges = 8 -> unpack_uint64 P h_edges = Ok ne ->
  len h_seeds = 8 -> unpack_uint64 P h_seeds = Ok ns ->
  len h_fsize = 8 -> unpack_uint64 P h_fsize = Ok fs ->
  0 <= nn < 2 ^ 63 -> 0 <= ne < 2 ^ 63 -> 0 <= fs < 2 ^ 63 ->
  len fb = 4 * (nn * fs) -> unpack_float_vector P fb = Ok feats ->
  len feats = nn * fs ->
  len lb = 8 * nn -> unpack_uint64_vector P lb = Ok labels ->
  Forall (fun z => - 2 ^ 63 <= z < 2 ^ 63) labels ->
  len eb = 8 * (2 * ne) -> unpack_uint64_vector P eb = Ok edges ->
  len edges = 2 * ne ->
  Forall (fun z => - 2 ^ 63 <= z < 2 ^ 63) edges ->
  len ib <= 8 * nn -> unpack_uint64_vector P ib = Ok ids ->
  decode P (h_nodes ++ h_edges ++ h_seeds ++ h_fsize ++ fb ++ lb ++ eb ++ ib)
  = Ok (Graph.mk {| shape := [nn; fs]; entries := feats |}
                 (tensor labels)
                 {| shape := [2; ne]; entries := edges |}
                 ids ns fs).
Proof.
  intros L1 U1 L2 U2 L3 U3 L4 U4 Hnn Hne Hfs Lf Uf Cf Ll Ul Fl Le Ue Ce Fe
    Li Ui.
  set (payload := h_nodes ++ h_edges ++ h_seeds ++ h_fsize ++ fb ++ lb ++ eb ++ ib).
  assert (S1 : slice payload 0 8 = h_nodes)
    by (segment (@nil byte) h_nodes
          (h_edges ++ h_seeds ++ h_fsize ++ fb ++ lb ++ eb ++ ib)).
  assert (S2 : slice payload 8 16 = h_edges)
    by (segment h_nodes h_edges (h_seeds ++ h_fsize ++ fb ++ lb ++ eb ++ ib)).
  assert (S3 : slice payload 16 24 = h_seeds)
    by (segment (h_nodes ++ h_edges) h_seeds (h_fsize ++ fb ++ lb ++ eb ++ ib)).
  assert (S4 : slice payload 24 32 = h_fsize)
    by (segment (h_nodes ++ h_edges ++ h_seeds) h_fsize (fb ++ lb ++ eb ++ ib)).
  assert (S5 : slice payload 32 (32 + 4 * nn * fs) = fb)
    by (segment (h_nodes ++ h_edges ++ h_seeds ++ h_fsize) fb (lb ++ eb ++ ib)).
  assert (S6 : slice payload (32 + 4 * nn * fs) (32 + 4 * nn * fs + 8 * nn) = lb)
    by (segment (h_nodes ++ h_edges ++ h_seeds ++ h_fsize ++ fb) lb (eb ++ ib)).
  assert (S7 : slice payload (32 + 4 * nn * fs + 8 * nn)
                 (32 + 4 * nn * fs + 8 * nn + 8 * 2 * ne) = eb)
    by (segment (h_nodes ++ h_edges ++ h_seeds ++ h_fsize ++ fb ++ lb) eb ib).
  assert (S8 : slice payload (32 + 4 * nn * fs + 8 * nn + 8 * 2 * ne)
                 (32 + 4 * nn * fs + 8 * nn + 8 * 2 * ne + 8 * nn) = ib).
  { transitivity
      (slice ((h_nodes ++ h_edges ++ h_seeds ++ h_fsize ++ fb ++ lb ++ eb)
                ++ ib)
         (32 + 4 * nn * fs + 8 * nn + 8 * 2 * ne)
         (32 + 4 * nn * fs + 8 * nn + 8 * 2 * ne + 8 * nn)).
    - f_equal. subst payload. rewrite <- !app_assoc. reflexivity.
    - apply slice_last_segment; rewrite ?len_app; lia. }
  assert (R1 : reshape (tensor feats) nn fs
               = Ok {| shape := [nn; fs]; entries := feats |})
    by (apply reshape_exact; assumption).
  assert (R2 : reshape (tensor edges) 2 ne
               = Ok {| shape := [2; ne]; entries := edges |})
    by (apply reshape_exact; lia).
  unfold decode.
  rewrite S1, U1; cbn [rbind]. rewrite S2, U2; cbn [rbind].
  rewrite S3, U3; cbn [rbind]. rewrite S4, U4; cbn [rbind].
  rewrite S5, Uf; cbn [rbind]. rewrite R1; cbn [rbind].
  rewrite S6, Ul; cbn [rbind].
  rewrite (tensor_int64_fits labels Fl); cbn [rbind].
  rewrite S7, Ue; cbn [rbind].
  rewrite (tensor_int64_fits edges Fe); cbn [rbind].
  rewrite R2; cbn [rbind]. rewrite S8, Ui. reflexivity.
Qed.

(** The loader has no check of its own for a payload shorter than the
    32-byte header: it hands the short slices to the packer.  With a packer
    whose [unpack_uint64] rejects every input that is not eight bytes long,
    [decode] raises. *)
Theorem decode_rejects_a_short_header (data : bytes) :
  (forall b, len b <> 8 -> exists e, unpack_uint64 P b = Raise e) ->
  len data < 32 ->
  exists e, decode P data = Raise e.
Proof.
  intros Hstrict Hlen. unfold decode.
  destruct (unpack_uint64 P (slice data 0 8)) as [nn|e];
    [|eexists; reflexivity].
  destruct (unpack_uint64 P (slice data 8 16)) as [ne|e];
    [|eexists; reflexivity].
  destruct (unpack_uint64 P (slice data 16 24)) as [ns|e];
    [|eexists; reflexivity].
  cbn [rbind].
  destruct (Hstrict (slice data 24 32)) as [e He].
  { rewrite len_slice by lia. pose proof (len_nonneg data). lia. }
  rewrite He. eexists. reflexivity.
Qed.

(** Likewise for the creation reply: with such a packer, a reply shorter
    than 16 bytes makes the constructor raise, and the object it leaves is
    closed. *)
Theorem construction_rejects_a_short_reply (k : construction)
    (c : MDBClient) (m data : bytes) (code : StatusCode)
    (rest : list reply) :
  (forall b, len b <> 8 -> exists e, unpack_uint64 P b = Raise e) ->
  valid_arguments k = true -> creation_layout P k = Ok m ->
  connected c = true -> replies c = Reply data code :: rest ->
  len data < 16 ->
  exists e self,
    raised (construct P k c) = Some e /\
    object (construct P k c) = Some self /\
    is_closed self = true /\ _size self = None.
Proof.
  intros Hstrict Hv Hm Hconn Hrep Hlen.
  rewrite (construct_valid P k c Hv). unfold after_base, create.
  rewrite Hm, Hconn, handle_new_response_run. cbn [replies connected sent].
  rewrite Hrep. cbn zeta.
  destruct (unpack_uint64 P (slice data 0 8)) as [id|e].
  - destruct (Hstrict (slice data 8 16)) as [e He].
    { rewrite len_slice by lia. pose proof (len_nonneg data). lia. }
    rewrite He. cbn. eexists _, _. repeat split.
  - cbn. eexists _, _. repeat split.
Qed.

End Short_payloads.

(** * The loader on concrete inputs *)

Lemma le_value_nonneg (b : bytes) : 0 <= RefPacker.le_value b.
Proof.
  induction b as [|x b IH]; cbn [RefPacker.le_value]; [lia|].
  unfold RefPacker.Z_of_byte. lia.
Qed.

Lemma ref_unpack_uint64_nonneg (b : bytes) (z : Z) :
  unpack_uint64 RefPacker.packer b = Ok z -> 0 <= z.
Proof.
  cbn. unfold RefPacker.unpack_uint64.
  destruct (len b =? 8); [|discriminate].
  intros [= <-]. apply le_value_nonneg.
Qed.

Lemma next_decodes_wire_layout_witness :
  __next__ RefPacker.packer Example.open_session
    (Example.wire [Reply Example.payload SUCCESS])
  = (Ok Example.batch, Example.open_session,
     Example.wire_after (RefPacker.byte_of_Z 1 :: Example.u64 7)).
Proof.
  apply (next_decodes_wire_layout RefPacker.packer Example.open_session
           (Example.wire [Reply Example.payload SUCCESS]) 7
           [RefPacker.byte_of_Z 1] (Example.u64 7) []
           (Example.u64 3) (Example.u64 2) (Example.u64 1) (Example.u64 4)
           (flat_map Example.f32 Example.features)
           (flat_map Example.u64 Example.labels)
           (flat_map Example.u64 Example.edges)
           (flat_map Example.u64 Example.ids)
           3 2 1 4 Example.features Example.labels Example.edges
           Example.ids);
    solve [reflexivity | lia | repeat constructor; lia
          | vm_compute; reflexivity].
Defined.

(** C2 fails on the code: a payload that carries one byte more than its
    header declares is decoded, to the batch of the payload without that
    byte, instead of being rejected. *)
Lemma decode_accepts_trailing_bytes :
  declared_length RefPacker.packer (Example.payload ++ [x2a]) = Ok 160 /\
  len (Example.payload ++ [x2a]) = 161 /\
  decode RefPacker.packer (Example.payload ++ [x2a]) = Ok Example.batch.
Proof. repeat split; vm_compute; reflexivity. Qed.

Lemma decode_has_no_length_check_witness :
  decode RefPacker.packer (Example.payload ++ [x2a])
  = decode RefPacker.packer Example.payload.
Proof.
  apply (proj1 (decode_has_no_length_check RefPacker.packer
                  ref_unpack_uint64_nonneg)).
  vm_compute. reflexivity.
Defined.


Lemma closed_session_is_guarded_witness :
  __next__ RefPacker.packer Example.closed_session
    (Example.wire [Reply Example.payload SUCCESS])
  = (Raise InvalidStateError, Example.closed_session,
     Example.wire [Reply Example.payload SUCCESS]).
Proof.
  apply (proj2 (closed_session_is_guarded RefPacker.packer)).
  reflexivity.
Defined.

Lemma close_life_cycle_witness :
  close RefPacker.packer Example.open_session
    (Example.wire [Reply [] SUCCESS])
  = (Ok tt, Example.closed_session,
     Example.wire_after (RefPacker.byte_of_Z 3 :: Example.u64 7)).
Proof.
  apply (proj1 (proj2 (close_life_cycle RefPacker.packer))
           Example.open_session (Example.wire [Reply [] SUCCESS]) 7
           [RefPacker.byte_of_Z 3] (Example.u64 7) [] SUCCESS []);
    reflexivity.
Defined.


Lemma creation_message_layout_witness :
  sent (client (construct RefPacker.packer
                  (NewTrain "store" 2 [5; -1] [40; 17])
                  (Example.wire [])))
  = [RefPacker.byte_of_Z 6 :: Example.u64 2 ++ Example.u64 2 ++ Example.u64 5
     ++ Example.u64 2
     ++ (Example.u64 5 ++ Example.u64 18446744073709551615)
     ++ ["s"; "t"; "o"; "r"; "e"]%byte
     ++ (Example.u64 40 ++ Example.u64 17)].
Proof.
  apply (proj2 (creation_message_layout RefPacker.packer
                  (NewTrain "store" 2 [5; -1] [40; 17]) (Example.wire [])));
    vm_compute; reflexivity.
Defined.

Lemma session_requests_layout_witness :
  sent (snd (call RefPacker.packer Iter Example.open_session
               (Example.wire [])))
  = [] ++ [[RefPacker.byte_of_Z 2] ++ Example.u64 7].
Proof.
  apply (proj2 (session_requests_layout RefPacker.packer Iter
                  GRAPH_LOADER_BEGIN Example.open_session (Example.wire [])
                  eq_refl) 7 [RefPacker.byte_of_Z 2] (Example.u64 7));
    reflexivity.
Defined.

Lemma invalid_arguments_raise_before_io_witness :
  (exists msg,
      raised (construct RefPacker.packer (NewTrain "store" 2 [5; -1] [])
                (Example.wire []))
      = Some (ValueError msg)) /\
  client (construct RefPacker.packer (NewTrain "store" 2 [5; -1] [])
            (Example.wire []))
  = Example.wire [].
Proof.
  apply (invalid_arguments_raise_before_io RefPacker.packer
           (NewTrain "store" 2 [5; -1] []) (Example.wire [])).
  right. right. right. exists "store"%string, 2, [5; -1]. reflexivity.
Defined.

Lemma failed_construction_is_closed_witness :
  is_closed Example.closed_session = true /\
  close RefPacker.packer Example.closed_session (Example.wire [])
  = (Ok tt, Example.closed_session, Example.wire []).
Proof.
  destruct (proj1 (proj2 (failed_construction_is_closed RefPacker.packer))
              (NewEval "store" 2 [5; -1]) (Example.wire [])
              (TransportError 1) Example.closed_session)
    as [Hclosed Hclose];
    [reflexivity | vm_compute; reflexivity |].
  split; [exact Hclosed | apply Hclose].
Defined.

Lemma ref_unpack_uint64_strict (b : bytes) :
  len b <> 8 -> exists e, unpack_uint64 RefPacker.packer b = Raise e.
Proof.
  intros H. cbn. unfold RefPacker.unpack_uint64.
  destruct (Z.eqb_spec (len b) 8); [contradiction|].
  eexists. reflexivity.
Qed.

Lemma iter_discards_the_reply_witness :
  __iter__ RefPacker.packer Example.open_session
    (Example.wire [Reply [x2a] (SERVER_ERROR 3)])
  = (Ok tt, Example.open_session,
     Example.wire_after (RefPacker.byte_of_Z 2 :: Example.u64 7)).
Proof.
  apply (iter_discards_the_reply RefPacker.packer Example.open_session
           (Example.wire [Reply [x2a] (SERVER_ERROR 3)]) 7
           [RefPacker.byte_of_Z 2] (Example.u64 7) [x2a] (SERVER_ERROR 3) []);
    reflexivity.
Defined.

Lemma only_close_changes_the_session_witness :
  snd (fst (call RefPacker.packer Next Example.open_session
              (Example.wire [Reply Example.payload SUCCESS])))
  = Example.open_session.
Proof.
  apply (proj1 (only_close_changes_the_session RefPacker.packer Next
                  Example.open_session
                  (Example.wire [Reply Example.payload SUCCESS]))).
  discriminate.
Defined.

Lemma failed_close_keeps_the_session_open_witness :
  Example.open_session = Example.open_session /\
  is_closed Example.open_session = false /\
  _graph_loader_id Example.open_session
  = _graph_loader_id Example.open_session.
Proof.
  apply (failed_close_keeps_the_session_open RefPacker.packer
           Example.open_session Example.open_session
           (Example.wire [Failure (TransportError 9)])
           (Example.wire_after (RefPacker.byte_of_Z 3 :: Example.u64 7))
           (TransportError 9)).
  reflexivity.
Defined.

Lemma for_each_collects_the_batches_witness :
  for_each RefPacker.packer 3 Example.open_session
    (Example.wire
       [Reply [] SUCCESS; Reply Example.payload SUCCESS;
        Reply Example.payload SUCCESS; Reply [] END_OF_ITERATION])
  = Some (Ok [Example.batch; Example.batch], Example.open_session,
          {| connected := true;
             sent := [] ++ [[RefPacker.byte_of_Z 2] ++ Example.u64 7]
                     ++ repeat ([RefPacker.byte_of_Z 1] ++ Example.u64 7) 3;
             replies := [] |}).
Proof.
  apply (for_each_collects_the_batches RefPacker.packer Example.open_session
           (Example.wire
              [Reply [] SUCCESS; Reply Example.payload SUCCESS;
               Reply Example.payload SUCCESS; Reply [] END_OF_ITERATION])
           7 [RefPacker.byte_of_Z 2] [RefPacker.byte_of_Z 1] (Example.u64 7)
           [] [] SUCCESS []
           [(Example.payload, SUCCESS, Example.batch);
            (Example.payload, SUCCESS, Example.batch)] 3);
    try reflexivity.
  - repeat constructor; try discriminate; vm_compute; reflexivity.
  - cbn. lia.
Defined.

Lemma construction_opens_the_session_witness :
  construct RefPacker.packer (NewEval "store" 2 [5; -1])
    (Example.wire
       [Reply (Example.u64 7 ++ Example.u64 4 ++ [x2a]) (SERVER_ERROR 3)])
  = {| raised := None;
       object := Some Example.open_session;
       client :=
         Example.wire_after
           (RefPacker.byte_of_Z 4 :: Example.u64 2 ++ Example.u64 2
            ++ Example.u64 5
            ++ (Example.u64 5 ++ Example.u64 18446744073709551615)
            ++ ["s"; "t"; "o"; "r"; "e"]%byte) |}.
Proof.
  apply (construction_opens_the_session RefPacker.packer
           (NewEval "store" 2 [5; -1])
           (Example.wire
              [Reply (Example.u64 7 ++ Example.u64 4 ++ [x2a])
                 (SERVER_ERROR 3)])
           _ (Example.u64 7 ++ Example.u64 4 ++ [x2a]) (SERVER_ERROR 3) []
           7 4);
    vm_compute; reflexivity.
Defined.

Lemma half_parsed_reply_keeps_the_id_witness :
  exists self,
    construct RefPacker.packer (NewEval "store" 2 [5; -1])
      (Example.wire [Reply (Example.u64 7 ++ [x2a]) SUCCESS])
    = {| raised := Some StructError;
         object := Some self;
         client :=
           {| connected := true;
              sent := [] ++ [RefPacker.byte_of_Z 4 :: Example.u64 2
                             ++ Example.u64 2 ++ Example.u64 5
                             ++ (Example.u64 5
                                 ++ Example.u64 18446744073709551615)
                             ++ ["s"; "t"; "o"; "r"; "e"]%byte];
              replies := [] |} |} /\
    _graph_loader_id self = Some 7 /\
    _size self = None /\
    is_closed self = true /\
    close RefPacker.packer self (Example.wire [])
    = (Ok tt, self, Example.wire []).
Proof.
  destruct (half_parsed_reply_keeps_the_id RefPacker.packer
              (NewEval "store" 2 [5; -1])
              (Example.wire [Reply (Example.u64 7 ++ [x2a]) SUCCESS])
              _ (Example.u64 7 ++ [x2a]) SUCCESS [] 7 StructError
              eq_refl eq_refl eq_refl eq_refl eq_refl eq_refl)
    as (self & Hrun & Hid & Hsz & Hcl & Hclose).
  exists self. repeat split; try assumption. apply Hclose.
Defined.

Lemma first_failed_check_decides_witness :
  raised (construct RefPacker.packer (NewTrain "store" 0 [] [])
            (Example.wire []))
  = Some (ValueError "batch_size must be a positive integer").
Proof.
  apply (proj1 (proj2 (first_failed_check_decides RefPacker.packer
                         (Example.wire [])))
           (NewTrain "store" 0 [] [])).
  - intros name bs nn ns H. discriminate H.
  - cbn. lia.
Defined.

Lemma constructed_sessions_are_well_formed_witness :
  1 <= batch_size Example.open_session /\
  num_neighbors Example.open_session <> [] /\
  Forall (fun n => 0 <= n) (num_neighbors Example.open_session).
Proof.
  apply (proj1 (constructed_sessions_are_well_formed RefPacker.packer
                  (NewEval "store" 2 [5; -1])
                  (Example.wire
                     [Reply (Example.u64 7 ++ Example.u64 4) SUCCESS])
                  Example.open_session eq_refl)).
Defined.

Lemma negative_counts_are_interchangeable_witness :
  construct RefPacker.packer (NewEval "store" 2 [5; -7]) (Example.wire [])
  = construct RefPacker.packer (NewEval "store" 2 [5; -1]) (Example.wire []).
Proof.
  apply (negative_counts_are_interchangeable RefPacker.packer
           (NewEval "store" 2 [5; -1]) [5; -7] (Example.wire [])).
  reflexivity.
Defined.

Lemma decode_accepts_a_short_id_section_witness :
  decode RefPacker.packer
    (Example.u64 3 ++ Example.u64 2 ++ Example.u64 1 ++ Example.u64 4
     ++ flat_map Example.f32 Example.features
     ++ flat_map Example.u64 Example.labels
     ++ flat_map Example.u64 Example.edges
     ++ flat_map Example.u64 [40; 17])
  = Ok (Graph.mk {| shape := [3; 4]; entries := Example.features |}
                 (tensor Example.labels)
                 {| shape := [2; 2]; entries := Example.edges |}
                 [40; 17] 1 4).
Proof.
  apply (decode_accepts_a_short_id_section RefPacker.packer
           (Example.u64 3) (Example.u64 2) (Example.u64 1) (Example.u64 4)
           (flat_map Example.f32 Example.features)
           (flat_map Example.u64 Example.labels)
           (flat_map Example.u64 Example.edges)
           (flat_map Example.u64 [40; 17])
           3 2 1 4 Example.features Example.labels Example.edges [40; 17]);
    solve [reflexivity | lia | repeat constructor; lia
          | vm_compute; reflexivity | vm_compute; discriminate].
Defined.

Lemma decode_rejects_a_short_header_witness :
  exists e,
    decode RefPacker.packer (Example.u64 3 ++ Example.u64 2) = Raise e.
Proof.
  apply (decode_rejects_a_short_header RefPacker.packer
           (Example.u64 3 ++ Example.u64 2) ref_unpack_uint64_strict).
  vm_compute. reflexivity.
Defined.

Lemma construction_rejects_a_short_reply_witness :
  exists e self,
    raised (construct RefPacker.packer (NewEval "store" 2 [5; -1])
              (Example.wire [Reply (Example.u64 7) SUCCESS]))
    = Some e /\
    object (construct RefPacker.packer (NewEval "store" 2 [5; -1])
              (Example.wire [Reply (Example.u64 7) SUCCESS]))
    = Some self /\
    is_closed self = true /\ _size self = None.
Proof.
  apply (construction_rejects_a_short_reply RefPacker.packer
           (NewEval "store" 2 [5; -1])
           (Example.wire [Reply (Example.u64 7) SUCCESS])
           (RefPacker.byte_of_Z 4 :: Example.u64 2 ++ Example.u64 2
            ++ Example.u64 5
            ++ (Example.u64 5 ++ Example.u64 18446744073709551615)
            ++ ["s"; "t"; "o"; "r"; "e"]%byte)
           (Example.u64 7) SUCCESS [] ref_unpack_uint64_strict);
    solve [reflexivity | vm_compute; reflexivity].
Defined.

Lemma iteration_keeps_the_session_witness :
  fst (run RefPacker.packer [Iter; Next; Size; Next] Example.open_session
         (Example.wire
            [Reply [] SUCCESS; Reply Example.payload SUCCESS;
             Reply [] END_OF_ITERATION]))
  = Example.open_session.
Proof.
  apply (iteration_keeps_the_session RefPacker.packer [Iter; Next; Size; Next]
           Example.open_session).
  cbn. intros [H|[H|[H|[H|[]]]]]; discriminate H.
Defined.
